(** * Document-integrity workflow of [frontend/src/App.js]

    A shallow embedding of the client-side controller: the SHA-256 hashing
    helper [calculateSha256], the three event handlers of the [App]
    component ([handleFileChange], [handleRegister], [handleVerify]) and the
    [disabled] gates of the rendered controls.

    JavaScript values are embedded as [JsVal]; the component state held by
    the six [useState] cells is the record [State]; a handler is a
    computation in a small state/exception/trace monad [M], whose trace
    records the observable calls ([alert], [axios.post], [console.error]).
    The outcome of the awaited HTTP request is
    the backend's answer to the request, part of the environment the
    handlers run in; the outcome of the file read belongs to the [File]. *)

From Stdlib Require Import String Ascii ZArith NArith List Bool Lia.
From Stdlib Require Import Strings.Byte.
Import ListNotations.
Local Open Scope string_scope.

(** ** JavaScript values *)

Module Js.

#[local] Unset Elimination Schemes.

(** The values that reach the handlers: JSON data parsed by axios, error
    objects, and [undefined].  Numbers are the integer-valued ones (file
    sizes, block numbers): [JNum n] is the Number nearest to the integer
    [n], as a numeric literal with the digits of [n] is read.  Strings are
    kept as their UTF-8 bytes.  Arrays and functions never reach the code
    below and are left out. *)
Inductive JsVal : Type :=
| JUndefined
| JNull
| JBool (b : bool)
| JNum (n : Z)
| JStr (s : string)
| JObj (fields : list (string * JsVal)).

(** Completion of an evaluation: a value, or a thrown value. *)
Inductive Completion (A : Type) : Type :=
| Normal (a : A)
| Throw (e : JsVal).
Arguments Normal {A} a.
Arguments Throw {A} e.

(** An awaited promise: still pending, or settled. *)
Inductive Promise (A : Type) : Type :=
| Pending
| Fulfilled (a : A)
| Rejected (e : JsVal).
Arguments Pending {A}.
Arguments Fulfilled {A} a.
Arguments Rejected {A} e.

(** ToBoolean. *)
Definition truthy (v : JsVal) : bool :=
  match v with
  | JUndefined | JNull => false
  | JBool b => b
  | JNum n => negb (n =? 0)%Z
  | JStr s => negb (s =? "")
  | JObj _ => true
  end.

(** [v === 'lit'] *)
Definition strict_eq_str (v : JsVal) (lit : string) : bool :=
  match v with
  | JStr s => (s =? lit)
  | _ => false
  end.

Fixpoint lookup (k : string) (fields : list (string * JsVal)) : JsVal :=
  match fields with
  | [] => JUndefined
  | (k', v) :: rest => if (k' =? k) then v else lookup k rest
  end.

(** A [TypeError] object; the wording of [message] is the engine's. *)
Definition TypeError (message : string) : JsVal :=
  JObj [("name", JStr "TypeError"); ("message", JStr message)].

Definition show_nullish (v : JsVal) : string :=
  match v with JNull => "null" | _ => "undefined" end.

(** [v.k] for the property names used by the handlers ([data], [status],
    [receipt], [transactionHash], [response], [message]); none of them is
    a built-in property of a string, number or boolean. *)
Definition get (v : JsVal) (k : string) : Completion JsVal :=
  match v with
  | JUndefined | JNull =>
      Throw (TypeError ("Cannot read properties of " ++ show_nullish v
                          ++ " (reading '" ++ k ++ "')"))
  | JObj fields => Normal (lookup k fields)
  | JBool _ | JNum _ | JStr _ => Normal JUndefined
  end.

(** [v?.k] *)
Definition opt_get (v : JsVal) (k : string) : JsVal :=
  match v with
  | JObj fields => lookup k fields
  | _ => JUndefined
  end.

(** [v.substring(0, n)].  JavaScript cuts [n] UTF-16 code units, this
    cuts [n] bytes: the two agree on ASCII strings (hex digests,
    transaction hashes), and what is stated about the cut of a string
    from outside assumes it ASCII ([ascii_only]).  The wording of the
    TypeErrors is V8's. *)
Definition call_substring0 (v : JsVal) (n : nat) : Completion string :=
  match v with
  | JStr s => Normal (substring 0 n s)
  | JUndefined | JNull =>
      Throw (TypeError ("Cannot read properties of " ++ show_nullish v
                          ++ " (reading 'substring')"))
  | _ => Throw (TypeError
                 "response.data.receipt.transactionHash.substring is not a function")
  end.

(** The strings on which bytes and UTF-16 code units coincide. *)
Definition ascii_only (s : string) : bool :=
  forallb (fun c => (N_of_ascii c <? 128)%N) (list_ascii_of_string s).

(** The decimal digits of a natural number. *)
Fixpoint decimal_digits (fuel : nat) (n : N) (acc : string) : string :=
  match fuel with
  | O => acc
  | S fuel' =>
      let d := ascii_of_N (48 + n mod 10) in
      if (n <? 10)%N then String d acc
      else decimal_digits fuel' (n / 10) (String d acc)
  end.

Definition digits_of (n : Z) : string :=
  decimal_digits (S (N.to_nat (N.log2 (Z.to_N n)))) (Z.to_N n) "".

(** The Number (IEEE 754 binary64) nearest to a non-negative integer,
    ties to the even significand; a result of [2 ^ 1024] or more stands
    for [Infinity]. *)
Definition round_double (v : Z) : Z :=
  (if v <? 2 ^ 53 then v
   else
     let e := Z.log2 v - 52 in
     let m := Z.shiftr v e in
     let r := v - Z.shiftl m e in
     let half := Z.shiftl 1 (e - 1) in
     let m' := if (half <? r) || ((r =? half) && Z.odd m) then m + 1 else m in
     Z.shiftl m' e)%Z.

Definition rounds_to (x c : Z) : bool := (0 <? c)%Z && (round_double c =? x)%Z.

(** Number::toString(x), radix 10, for a finite positive integer-valued
    Number [x]: the digits [s] and the exponent [j] with [s * 10 ^ j]
    rounding to [x], [s] as short as possible and then as close to [x] as
    possible (the even [s] on a tie).  [shortest_scale] finds the largest
    [j] for which a multiple of [10 ^ j] rounds to [x]; it is enough to
    try the two multiples around [x]. *)
Fixpoint shortest_scale (fuel : nat) (j p x : Z) : Z * Z :=
  match fuel with
  | O => (j, p)
  | S fuel' =>
      let p' := (10 * p)%Z in
      let lo := (x / p' * p')%Z in
      if rounds_to x lo || rounds_to x (lo + p')%Z
      then shortest_scale fuel' (j + 1)%Z p' x else (j, p)
  end.

Definition shortest_digits (x : Z) : Z * Z :=
  let (j, p) := shortest_scale 400 0 1 x in
  let lo := (x / p * p)%Z in
  let hi := (lo + p)%Z in
  let c :=
    if rounds_to x lo && rounds_to x hi then
      if (x - lo <? hi - x)%Z then lo
      else if (hi - x <? x - lo)%Z then hi
      else if Z.even (lo / p) then lo else hi
    else if rounds_to x lo then lo else hi in
  ((c / p)%Z, j).

(** Plain digits up to 21 of them, exponent form beyond. *)
Definition number_text (x : Z) : string :=
  let (s, j) := shortest_digits x in
  let digits := digits_of s in
  let n := (Z.of_nat (String.length digits) + j)%Z in
  if (n <=? 21)%Z then digits ++ string_of_list_ascii (repeat "0"%char (Z.to_nat j))
  else
    match digits with
    | String d EmptyString => String d ("e+" ++ digits_of (n - 1))
    | String d rest => String d ("." ++ rest ++ "e+" ++ digits_of (n - 1))
    | EmptyString => digits
    end.

(** Number::toString of [JNum z]. *)
Definition decimal (z : Z) : string :=
  if (z =? 0)%Z then "0"
  else
    let x := round_double (Z.abs z) in
    let text := if (2 ^ 1024 <=? x)%Z then "Infinity" else number_text x in
    if (z <? 0)%Z then "-" ++ text else text.
Arguments decimal : simpl never.

(** An own property, whatever its value. *)
Fixpoint has_key (k : string) (fields : list (string * JsVal)) : bool :=
  match fields with
  | [] => false
  | (k', _) :: rest => (k' =? k) || has_key k rest
  end.

(** ToString, as applied by a template literal [`${v}`].  An object is
    converted through its [toString] method: a parsed JSON object inherits
    the one that answers [[object Object]], unless it has an own
    [toString] property, which is never callable; then neither is there a
    [valueOf] that returns a primitive, and the conversion throws. *)
Definition to_string (v : JsVal) : Completion string :=
  match v with
  | JUndefined => Normal "undefined"
  | JNull => Normal "null"
  | JBool true => Normal "true"
  | JBool false => Normal "false"
  | JNum n => Normal (decimal n)
  | JStr s => Normal s
  | JObj fields =>
      if has_key "toString" fields
      then Throw (TypeError "Cannot convert object to primitive value")
      else Normal "[object Object]"
  end.

End Js.
Import Js.

(** ** Content hasher *)

(** [window.crypto.subtle.digest('SHA-256', buffer)]: the platform's
    SHA-256 (FIPS 180-4) over 32-bit words, written with [Z] and explicit
    reduction modulo 2^32. *)
Module Sha256.
Local Open Scope Z_scope.

Definition w32 (x : Z) : Z := x mod 2 ^ 32.
Definition add32 (x y : Z) : Z := w32 (x + y).
Definition rotr (n x : Z) : Z :=
  Z.lor (Z.shiftr x n) (w32 (Z.shiftl x (32 - n))).
Definition not32 (x : Z) : Z := Z.lxor x 0xFFFFFFFF.

Definition Ch (x y z : Z) : Z := Z.lxor (Z.land x y) (Z.land (not32 x) z).
Definition Maj (x y z : Z) : Z :=
  Z.lxor (Z.lxor (Z.land x y) (Z.land x z)) (Z.land y z).
Definition Sigma0 (x : Z) : Z :=
  Z.lxor (Z.lxor (rotr 2 x) (rotr 13 x)) (rotr 22 x).
Definition Sigma1 (x : Z) : Z :=
  Z.lxor (Z.lxor (rotr 6 x) (rotr 11 x)) (rotr 25 x).
Definition sigma0 (x : Z) : Z :=
  Z.lxor (Z.lxor (rotr 7 x) (rotr 18 x)) (Z.shiftr x 3).
Definition sigma1 (x : Z) : Z :=
  Z.lxor (Z.lxor (rotr 17 x) (rotr 19 x)) (Z.shiftr x 10).

(** The round constants and the initial hash value are the first 32
    bits of the fractional parts of the cube roots of the first 64 primes,
    and of the square roots of the first 8. *)
Definition is_prime (n : nat) : bool :=
  forallb (fun d => negb (Nat.eqb (Nat.modulo n d) 0)) (seq 2 (n - 2)).

Definition primes : list Z := map Z.of_nat (filter is_prime (seq 2 310)).

(** Integer cube root, one bit at a time from bit [i - 1] down. *)
Fixpoint cbrt_bits (i : nat) (n r : Z) : Z :=
  match i with
  | O => r
  | S i' =>
      let c := r + 2 ^ Z.of_nat i' in
      cbrt_bits i' n (if c * c * c <=? n then c else r)
  end.

Definition frac32_cbrt (p : Z) : Z := w32 (cbrt_bits 40 (p * 2 ^ 96) 0).
Definition frac32_sqrt (p : Z) : Z := w32 (Z.sqrt (p * 2 ^ 64)).

Definition K : list Z := Eval vm_compute in map frac32_cbrt primes.

(** The eight working words. *)
Record Words := mkWords { wa : Z; wb : Z; wc : Z; wd : Z;
                          we : Z; wf : Z; wg : Z; wh : Z }.

Definition H0 : Words :=
  Eval vm_compute in
    let h i := frac32_sqrt (nth i primes 0) in
    mkWords (h 0%nat) (h 1%nat) (h 2%nat) (h 3%nat)
            (h 4%nat) (h 5%nat) (h 6%nat) (h 7%nat).

Definition word_of_bytes (b3 b2 b1 b0 : Z) : Z :=
  Z.lor (Z.lor (Z.shiftl b3 24) (Z.shiftl b2 16)) (Z.lor (Z.shiftl b1 8) b0).

Fixpoint words_of_bytes (bs : list Z) : list Z :=
  match bs with
  | b3 :: b2 :: b1 :: b0 :: rest => word_of_bytes b3 b2 b1 b0 :: words_of_bytes rest
  | _ => []
  end.

(** Message schedule, newest word first. *)
Fixpoint schedule (n : nat) (wrev : list Z) : list Z :=
  match n with
  | O => wrev
  | S n' =>
      let w := add32 (add32 (sigma1 (nth 1 wrev 0)) (nth 6 wrev 0))
                     (add32 (sigma0 (nth 14 wrev 0)) (nth 15 wrev 0)) in
      schedule n' (w :: wrev)
  end.

Definition round (s : Words) (kw : Z * Z) : Words :=
  let t1 := add32 (add32 (add32 (wh s) (Sigma1 (we s))) (Ch (we s) (wf s) (wg s)))
                  (add32 (fst kw) (snd kw)) in
  let t2 := add32 (Sigma0 (wa s)) (Maj (wa s) (wb s) (wc s)) in
  mkWords (add32 t1 t2) (wa s) (wb s) (wc s) (add32 (wd s) t1) (we s) (wf s) (wg s).

Definition compress (h : Words) (block : list Z) : Words :=
  let w := rev (schedule 48 (rev (words_of_bytes block))) in
  let s := fold_left round (combine K w) h in
  mkWords (add32 (wa h) (wa s)) (add32 (wb h) (wb s))
          (add32 (wc h) (wc s)) (add32 (wd h) (wd s))
          (add32 (we h) (we s)) (add32 (wf h) (wf s))
          (add32 (wg h) (wg s)) (add32 (wh h) (wh s)).

Definition be_bytes (width : nat) (x : Z) : list Z :=
  map (fun i => Z.shiftr x (8 * Z.of_nat i) mod 256) (rev (seq 0 width)).

Definition pad (msg : list Z) : list Z :=
  let len := Z.of_nat (length msg) in
  msg ++ [0x80] ++ repeat 0 (Z.to_nat ((55 - len) mod 64)) ++ be_bytes 8 (8 * len).

Fixpoint blocks (n : nat) (bs : list Z) : list (list Z) :=
  match n with
  | O => []
  | S n' => firstn 64 bs :: blocks n' (skipn 64 bs)
  end.

Definition byte_of_Z (z : Z) : byte :=
  match Byte.of_N (Z.to_N (z mod 256)) with
  | Some b => b
  | None => x00
  end.

Definition digest (msg : list byte) : list byte :=
  let padded := pad (map (fun b => Z.of_N (Byte.to_N b)) msg) in
  let h := fold_left compress (blocks (length padded / 64) padded) H0 in
  map byte_of_Z
      (flat_map (be_bytes 4)
         [wa h; wb h; wc h; wd h; we h; wf h; wg h; wh h]).

End Sha256.

(** The digit characters of radix 16: [0-9], then [a-f]. *)
Definition hex_digit (d : N) : ascii :=
  if (d <? 10)%N then ascii_of_N (48 + d) else ascii_of_N (87 + d).

Fixpoint toString16_digits (fuel : nat) (n : N) (acc : string) : string :=
  match fuel with
  | O => acc
  | S fuel' =>
      let acc' := String (hex_digit (n mod 16)) acc in
      if (n <? 16)%N then acc' else toString16_digits fuel' (n / 16) acc'
  end.

(** [n.toString(16)] for a non-negative integer. *)
Definition toString16 (n : N) : string :=
  toString16_digits (S (N.to_nat (N.log2 n))) n "".

(** [s.padStart(target, c)] with a one-character filler. *)
Definition padStart (target : nat) (c : ascii) (s : string) : string :=
  string_of_list_ascii (repeat c (target - String.length s)) ++ s.

(** [hashArray.map(b => b.toString(16).padStart(2, '0')).join('')] *)
Definition byte_hex (b : byte) : string :=
  padStart 2 "0"%char (toString16 (Byte.to_N b)).

Definition hashHex (hashArray : list byte) : string :=
  String.concat "" (map byte_hex hashArray).

(** What [reader.readAsArrayBuffer(file)] ends in: [onload] with the
    file's bytes, or [onerror] with the event it is called with. *)
Inductive ReadOutcome : Type :=
| Loaded (buffer : list byte)
| ReadError (event : JsVal).

(** A [File] as the handlers use it: the three descriptive properties and
    the content the reader delivers. *)
Record File : Type := mkFile {
  name : string;
  size : Z;
  type : string;
  contents : ReadOutcome
}.

(** The browser environment of the hasher: [window.crypto.subtle] is
    undefined outside secure contexts. *)
Record Window : Type := mkWindow { subtle_defined : bool }.

(** [calculateSha256(file)]: the promise it returns, once the reader has
    fired [onload] (resolve, or reject from the [catch]) or [onerror]. *)
Definition calculateSha256 (window : Window) (file : File) : Promise string :=
  match contents file with
  | Loaded buffer =>
      if subtle_defined window then
        let hashBuffer := Sha256.digest buffer in
        let hashArray := hashBuffer in
        Fulfilled (hashHex hashArray)
      else
        Rejected (TypeError "Cannot read properties of undefined (reading 'digest')")
  | ReadError event => Rejected event
  end.

Definition bytes_of_string (s : string) : list byte := list_byte_of_string s.

(** ** Component state and the handler monad *)

(** The six [useState] cells of [App]. *)
Record State : Type := mkState {
  file : option File;      (* null or the selected File *)
  docHash : string;
  status : string;
  result : JsVal;          (* null or a response body *)
  loading : bool;
  errorMessage : JsVal     (* a string, or whatever [error.message] was *)
}.

(** [useState] initial values. *)
Definition initialState : State :=
  mkState None "" "Select a file to begin..." JNull false (JStr "").

(** Observable calls, in the order they are made. *)
Inductive Effect : Type :=
| Alert (message : string)
| Post (url : string) (body : JsVal)
| ConsoleError (e : JsVal).

(** How far an async handler got: it returned, it threw, or it is
    suspended at an [await] on a pending promise. *)
Inductive Run (A : Type) : Type :=
| Returned (a : A)
| Threw (e : JsVal)
| Suspended.
Arguments Returned {A} a.
Arguments Threw {A} e.
Arguments Suspended {A}.

Definition M (A : Type) : Type := State -> Run A * State * list Effect.

Definition ret {A} (a : A) : M A := fun s => (Returned a, s, []).

Definition bind {A B} (c : M A) (k : A -> M B) : M B :=
  fun s =>
    match c s with
    | (Returned a, s1, t1) =>
        match k a s1 with (r, s2, t2) => (r, s2, (t1 ++ t2)%list) end
    | (Threw e, s1, t1) => (Threw e, s1, t1)
    | (Suspended, s1, t1) => (Suspended, s1, t1)
    end.

Declare Scope js_scope.
Delimit Scope js_scope with js.
Notation "x <- c1 ;; c2" := (bind c1 (fun x => c2))
  (at level 61, c1 at next level, right associativity) : js_scope.
Notation "c1 ;; c2" := (bind c1 (fun _ => c2))
  (at level 61, right associativity) : js_scope.
Local Open Scope js_scope.

(** Evaluation of an expression that may throw. *)
Definition eval {A} (c : Completion A) : M A :=
  fun s => match c with
           | Normal a => (Returned a, s, [])
           | Throw e => (Threw e, s, [])
           end.

(** [await p] *)
Definition await {A} (p : Promise A) : M A :=
  fun s => match p with
           | Pending => (Suspended, s, [])
           | Fulfilled a => (Returned a, s, [])
           | Rejected e => (Threw e, s, [])
           end.

(** [try { body } catch (error) { handler error } finally { final }] *)
Definition try_catch_finally {A} (body : M A) (handler : JsVal -> M A)
    (final : M unit) : M A :=
  fun s =>
    match body s with
    | (Returned a, s1, t1) =>
        match final s1 with
        | (Returned _, s2, t2) => (Returned a, s2, (t1 ++ t2)%list)
        | (Threw e, s2, t2) => (Threw e, s2, (t1 ++ t2)%list)
        | (Suspended, s2, t2) => (Suspended, s2, (t1 ++ t2)%list)
        end
    | (Threw e, s1, t1) =>
        match handler e s1 with
        | (Suspended, s2, t2) => (Suspended, s2, (t1 ++ t2)%list)
        | (r, s2, t2) =>
            match final s2 with
            | (Returned _, s3, t3) => (r, s3, (t1 ++ t2 ++ t3)%list)
            | (Threw e', s3, t3) => (Threw e', s3, (t1 ++ t2 ++ t3)%list)
            | (Suspended, s3, t3) => (Suspended, s3, (t1 ++ t2 ++ t3)%list)
            end
        end
    | (Suspended, s1, t1) => (Suspended, s1, t1)
    end.

(** The values of the render whose closure the handler is. *)
Definition rendered : M State := fun s => (Returned s, s, []).

Definition setFile (v : option File) : M unit := fun s =>
  (Returned tt,
   mkState v (docHash s) (status s) (result s) (loading s) (errorMessage s), []).
Definition setDocHash (v : string) : M unit := fun s =>
  (Returned tt,
   mkState (file s) v (status s) (result s) (loading s) (errorMessage s), []).
Definition setStatus (v : string) : M unit := fun s =>
  (Returned tt,
   mkState (file s) (docHash s) v (result s) (loading s) (errorMessage s), []).
Definition setResult (v : JsVal) : M unit := fun s =>
  (Returned tt,
   mkState (file s) (docHash s) (status s) v (loading s) (errorMessage s), []).
Definition setLoading (v : bool) : M unit := fun s =>
  (Returned tt,
   mkState (file s) (docHash s) (status s) (result s) v (errorMessage s), []).
Definition setErrorMessage (v : JsVal) : M unit := fun s =>
  (Returned tt,
   mkState (file s) (docHash s) (status s) (result s) (loading s) v, []).

Definition alert (message : string) : M unit :=
  fun s => (Returned tt, s, [Alert message]).
Definition console_error (e : JsVal) : M unit :=
  fun s => (Returned tt, s, [ConsoleError e]).

Definition run_of {A} (x : Run A * State * list Effect) : Run A := fst (fst x).
Definition state_of {A} (x : Run A * State * list Effect) : State := snd (fst x).
Definition trace_of {A} (x : Run A * State * list Effect) : list Effect := snd x.

(** The requests a trace sends to the backend. *)
Fixpoint requests (t : list Effect) : list (string * JsVal) :=
  match t with
  | [] => []
  | Post url body :: t' => (url, body) :: requests t'
  | _ :: t' => requests t'
  end.

(** ** The handlers *)

Definition API_URL : string := "http://localhost:5000/api/documents".

(** The status line chosen from [data.status] in [handleVerify]. *)
Definition newStatus (data_status : JsVal) : string :=
  if strict_eq_str data_status "VERIFIED_OK" then
    "✅ Integrity **VERIFIED**. Document is original and registered on-chain."
  else if strict_eq_str data_status "VERIFIED_ON_CHAIN_ONLY" then
    "⚠️ Hash found on-chain, but off-chain metadata is missing. Integrity check **OK**."
  else
    "❌ Not found on-chain. Document is UNREGISTERED or TAMPERED.".

(** [error.response?.data?.message || error.message] *)
Definition error_msg (error : JsVal) : Completion JsVal :=
  match get error "response" with
  | Throw e => Throw e
  | Normal response =>
      let backend := opt_get (opt_get response "data") "message" in
      if truthy backend then Normal backend else get error "message"
  end.

Section Handlers.

(** The environment: the browser's [window], and what the backend answers
    to [axios.post(url, body)]. *)
Variable window : Window.
Variable backend : string -> JsVal -> Promise JsVal.

(** [axios.post(url, body)]: the request goes out, the promise is the
    backend's answer. *)
Definition axios_post (url : string) (body : JsVal) : M (Promise JsVal) :=
  fun s => (Returned (backend url body), s, [Post url body]).

Definition handleFileChange (e_target_files_0 : option File) : M unit :=
  match e_target_files_0 with
  | Some selectedFile =>
      setFile (Some selectedFile) ;;
      setResult JNull ;;
      setErrorMessage (JStr "") ;;
      setStatus ("Calculating SHA-256 for: " ++ name selectedFile ++ "...") ;;
      setLoading true ;;
      try_catch_finally
        (hash <- await (calculateSha256 window selectedFile) ;;
         setDocHash hash ;;
         setStatus ("Hash calculated: " ++ substring 0 10 hash ++ "..."))
        (fun error =>
           setStatus "Error calculating hash." ;;
           message <- eval (get error "message") ;;
           setErrorMessage message)
        (setLoading false)
  | None =>
      setFile None ;;
      setDocHash "" ;;
      setStatus "Select a file to begin..."
  end.

(** The body of the register request. *)
Definition register_payload (docHash : string) (file : File) : JsVal :=
  JObj [ ("docHash", JStr docHash);
         ("filename", JStr (name file));
         ("filesize", JNum (size file));
         ("mimeType", JStr (type file));
         ("uploader", JStr "ClientDemoUser") ].

Definition handleRegister : M unit :=
  render <- rendered ;;
  match (docHash render =? ""), file render with
  | false, Some file =>
      setLoading true ;;
      setResult JNull ;;
      setErrorMessage (JStr "") ;;
      setStatus "Attempting to register on-chain..." ;;
      let payload := register_payload (docHash render) file in
      try_catch_finally
        (pending <- axios_post (API_URL ++ "/register") payload ;;
         response <- await pending ;;
         data <- eval (get response "data") ;;
         receipt <- eval (get data "receipt") ;;
         transactionHash <- eval (get receipt "transactionHash") ;;
         tx <- eval (call_substring0 transactionHash 10) ;;
         setStatus ("✅ Registered! TX: " ++ tx ++ "...") ;;
         setResult data)
        (fun error =>
           msg <- eval (error_msg error) ;;
           text <- eval (to_string msg) ;;
           setErrorMessage (JStr ("Registration Failed: " ++ text)) ;;
           setStatus "Registration failed." ;;
           console_error error)
        (setLoading false)
  | _, _ =>
      alert "Please select a file and compute the hash first."
  end.

(** The body of the verify request. *)
Definition verify_payload (docHash : string) : JsVal :=
  JObj [ ("docHash", JStr docHash) ].

Definition handleVerify : M unit :=
  render <- rendered ;;
  match (docHash render =? ""), file render with
  | false, Some _ =>
      setLoading true ;;
      setResult JNull ;;
      setErrorMessage (JStr "") ;;
      setStatus "Checking integrity against on-chain record..." ;;
      try_catch_finally
        (pending <- axios_post (API_URL ++ "/verify") (verify_payload (docHash render)) ;;
         response <- await pending ;;
         data <- eval (get response "data") ;;
         data_status <- eval (get data "status") ;;
         setStatus (newStatus data_status) ;;
         setResult data)
        (fun error =>
           msg <- eval (error_msg error) ;;
           text <- eval (to_string msg) ;;
           setErrorMessage (JStr ("Verification Failed: " ++ text)) ;;
           setStatus "Verification failed." ;;
           console_error error)
        (setLoading false)
  | _, _ =>
      alert "Please select a file and compute the hash first."
  end.

(** *** The rendered controls *)

(** [<input type="file" disabled={loading}>] *)
Definition input_disabled (s : State) : bool := loading s.

(** [disabled={loading || !docHash}] of both buttons. *)
Definition button_disabled (s : State) : bool :=
  loading s || (docHash s =? "").

(** A click reaches [onClick] only when the control is enabled. *)
Definition click_register : M unit :=
  fun s => if button_disabled s then (Returned tt, s, []) else handleRegister s.

Definition click_verify : M unit :=
  fun s => if button_disabled s then (Returned tt, s, []) else handleVerify s.

Definition change_file (e_target_files_0 : option File) : M unit :=
  fun s => if input_disabled s then (Returned tt, s, [])
           else handleFileChange e_target_files_0 s.

End Handlers.

(** The two user-triggered actions. *)
Inductive Action : Type := Register | Verify.

Definition handle (backend : string -> JsVal -> Promise JsVal) (a : Action) : M unit :=
  match a with
  | Register => handleRegister backend
  | Verify => handleVerify backend
  end.

(** The request an action sends for a digest and a file. *)
Definition request_of (a : Action) (docHash : string) (file : File) : string * JsVal :=
  match a with
  | Register => (API_URL ++ "/register", register_payload docHash file)
  | Verify => (API_URL ++ "/verify", verify_payload docHash)
  end.

(** A click on the action's button. *)
Definition click (backend : string -> JsVal -> Promise JsVal) (a : Action) : M unit :=
  match a with
  | Register => click_register backend
  | Verify => click_verify backend
  end.

Definition is_settled {A} (p : Promise A) : bool :=
  match p with
  | Pending => false
  | _ => true
  end.

(** The literal prefixes and status lines of the two [catch] blocks. *)
Definition failure_prefix (a : Action) : string :=
  match a with
  | Register => "Registration Failed: "
  | Verify => "Verification Failed: "
  end.

Definition failure_status (a : Action) : string :=
  match a with
  | Register => "Registration failed."
  | Verify => "Verification failed."
  end.

(** The status lines set before the request goes out. *)
Definition progress_status (a : Action) : string :=
  match a with
  | Register => "Attempting to register on-chain..."
  | Verify => "Checking integrity against on-chain record..."
  end.

(** What the [catch] and [finally] blocks of an action make of a caught
    [error], from the state the [try] block was entered in (digest and
    file of [s], [loading] set) and after the [request] went out: the
    failed state, unless reading the message or converting it to a string
    throws in turn. *)
Definition caught (a : Action) (s : State) (request : string * JsVal)
    (error : JsVal) : Run unit * State * list Effect :=
  let thrown e :=
    (Threw e,
     mkState (file s) (docHash s) (progress_status a) JNull false (JStr ""),
     [Post (fst request) (snd request)]) in
  match error_msg error with
  | Throw e => thrown e
  | Normal msg =>
      match to_string msg with
      | Throw e => thrown e
      | Normal text =>
          (Returned tt,
           mkState (file s) (docHash s) (failure_status a) JNull false
                   (JStr (failure_prefix a ++ text)),
           [Post (fst request) (snd request); ConsoleError error])
      end
  end.

(** Lower-case hexadecimal digits, [0-9a-f]. *)
Definition is_lower_hex (c : ascii) : bool :=
  let n := N_of_ascii c in
  ((48 <=? n) && (n <=? 57) || (97 <=? n) && (n <=? 102))%N.

(** ** Scenario data *)

Definition report_pdf : File :=
  mkFile "report.pdf" 1024 "application/pdf" (Loaded (repeat "a"%byte 1024)).

Definition unreadable_txt : File :=
  mkFile "notes.txt" 12 "text/plain" (ReadError (JObj [("type", JStr "error")])).

Definition secure_window : Window := mkWindow true.

Definition d1 : string :=
  "2edc986847e209b4016e141a6dc8716d3207350f416969382d431539bf292e4a".

(** The session after [report.pdf] was selected and hashed. *)
Definition hashReady : State :=
  mkState (Some report_pdf) d1 "Hash calculated: 2edc986847..." JNull false (JStr "").

Definition never_answers : string -> JsVal -> Promise JsVal :=
  fun _ _ => Pending.

Definition answers (response_data : JsVal) : string -> JsVal -> Promise JsVal :=
  fun _ _ => Fulfilled (JObj [("data", response_data)]).

Definition rejects (error : JsVal) : string -> JsVal -> Promise JsVal :=
  fun _ _ => Rejected error.

(** The session while the register request for [report.pdf] is pending. *)
Definition registering : State :=
  state_of (handleRegister never_answers hashReady).

Definition verified_ok_body : JsVal :=
  JObj [ ("status", JStr "VERIFIED_OK");
         ("onChainData", JObj [("owner", JStr "0x90F8bf6A479f320ead074411a4B0e7944Ea8c9C1");
                               ("blockNumber", JNum 7)]);
         ("offChainData", JObj [("filename", JStr "report.pdf")]) ].

Definition on_chain_only_body : JsVal :=
  JObj [ ("status", JStr "VERIFIED_ON_CHAIN_ONLY");
         ("onChainData", JObj [("owner", JStr "0x90F8bf6A479f320ead074411a4B0e7944Ea8c9C1")]) ].

Definition not_found_body : JsVal := JObj [ ("status", JStr "NOT_FOUND") ].

(** An axios error for a 400 answer whose body carries an empty message. *)
Definition error_with_empty_message : JsVal :=
  JObj [ ("message", JStr "Request failed with status code 400");
         ("response", JObj [ ("status", JNum 400);
                             ("data", JObj [("message", JStr "")]) ]) ].

Definition error_already_registered : JsVal :=
  JObj [ ("message", JStr "Request failed with status code 409");
         ("response", JObj [ ("status", JNum 409);
                             ("data", JObj [("message", JStr "Document already registered")]) ]) ].

Definition error_network : JsVal := JObj [ ("message", JStr "Network Error") ].

(** An axios error whose response body carries, as message, a JSON object
    with a [toString] property. *)
Definition error_unprintable : JsVal :=
  JObj [ ("message", JStr "Request failed with status code 500");
         ("response",
          JObj [ ("status", JNum 500);
                 ("data", JObj [("message", JObj [("toString", JNum 1)])]) ]) ].

(** A register answer as the backend sends it. *)
Definition receipt_body : JsVal :=
  JObj [ ("receipt", JObj [ ("transactionHash", JStr "0xabc1234567890def");
                            ("blockNumber", JNum 3) ]) ].

(** ** The rest of the rendered surface *)

(** [haystack.includes(needle)].  On byte strings; for the ASCII needles
    the component searches for, a match in the UTF-8 bytes is a match in
    the UTF-16 string and conversely. *)
Fixpoint includes (haystack needle : string) : bool :=
  prefix needle haystack
  || match haystack with
     | EmptyString => false
     | String _ rest => includes rest needle
     end.

(** The style objects [getStatusStyle] returns. *)
Record Style : Type := mkStyle { color : string; fontWeight : option string }.

Definition getStatusStyle (currentStatus : string) : Style :=
  if includes currentStatus "VERIFIED_OK" then mkStyle "green" (Some "bold")
  else if includes currentStatus "UNREGISTERED" || includes currentStatus "TAMPERED"
       then mkStyle "red" (Some "bold")
  else if includes currentStatus "failed" || includes currentStatus "Error"
       then mkStyle "darkred" None
  else mkStyle "gray" None.

(** The captions of the two buttons. *)
Definition register_label (s : State) : string :=
  if loading s && includes (status s) "register"
  then "⏳ Registering..." else "📝 Register Document".

Definition verify_label (s : State) : string :=
  if loading s && includes (status s) "integrity"
  then "⏳ Verifying..." else "🔍 Verify Integrity".

(** [{errorMessage && <p>Error: ...</p>}] *)
Definition error_line_shown (s : State) : bool := truthy (errorMessage s).

(** [{result && <div className="verification-details">...</div>}] *)
Definition details_shown (s : State) : bool := truthy (result s).

(** Inside the details panel, [result] is truthy and its properties are
    read without throwing.  [{result.offChainData && ...}] *)
Definition offchain_shown (s : State) : bool :=
  details_shown s && truthy (opt_get (result s) "offChainData").

(** [{result.onChainData && <> Status ... Owner Address ... </>}]: the
    [Status: **{result.status}**] line lives inside this block. *)
Definition onchain_shown (s : State) : bool :=
  details_shown s && truthy (opt_get (result s) "onChainData").

(** [response.data.receipt.transactionHash.substring(0, 10)], from the
    response body. *)
Definition tx_prefix (data : JsVal) : Completion string :=
  match get data "receipt" with
  | Throw e => Throw e
  | Normal receipt =>
      match get receipt "transactionHash" with
      | Throw e => Throw e
      | Normal transactionHash => call_substring0 transactionHash 10
      end
  end.

(** ** Sessions driven through the surface *)

(** What the user can do: pick a file (or cancel the dialog) and click one
    of the two buttons.  Each event comes with the environment it meets:
    the browser window, or the backend's answer to the request. *)
Inductive Event : Type :=
| SelectFile (window : Window) (e_target_files_0 : option File)
| Click (a : Action) (backend : string -> JsVal -> Promise JsVal).

Definition surface (ev : Event) : M unit :=
  match ev with
  | SelectFile window e_target_files_0 => change_file window e_target_files_0
  | Click a backend => click backend a
  end.

(** The state and the trace after a sequence of events.  While [loading]
    is set every control is disabled, so no event comes between an [await]
    and its continuation and each enabled event runs as a whole. *)
Fixpoint session (evs : list Event) (s : State) : State * list Effect :=
  match evs with
  | [] => (s, [])
  | ev :: evs' =>
      let r := surface ev s in
      let r' := session evs' (state_of r) in
      (fst r', (trace_of r ++ snd r')%list)
  end.

(** The backend settles every request of the event. *)
Definition answered (ev : Event) : Prop :=
  match ev with
  | SelectFile _ _ => True
  | Click _ backend => forall url body, is_settled (backend url body) = true
  end.

(** The alerts of a trace. *)
Fixpoint alerts (t : list Effect) : list string :=
  match t with
  | [] => []
  | Alert message :: t' => message :: alerts t'
  | _ :: t' => alerts t'
  end.

(** A string of 64 lower-case hex digits. *)
Definition is_hex64 (h : string) : bool :=
  Nat.eqb (String.length h) 64
  && forallb is_lower_hex (list_ascii_of_string h).

Definition carries_hex64_digest (request : string * JsVal) : bool :=
  match opt_get (snd request) "docHash" with
  | JStr h => is_hex64 h
  | _ => false
  end.

(** The digest cell is empty or a 64-digit hex string, and a non-empty
    digest comes with a selected file. *)
Definition session_inv (s : State) : Prop :=
  ((docHash s =? "") || is_hex64 (docHash s) = true)
  /\ ((docHash s =? "") = false -> file s <> None).

(** Reading the hex string back, to state that [hashHex] loses nothing
    (the component itself never decodes). *)
Definition hex_value (c : ascii) : option N :=
  let n := N_of_ascii c in
  if ((48 <=? n) && (n <=? 57))%N then Some (n - 48)%N
  else if ((97 <=? n) && (n <=? 102))%N then Some (n - 87)%N
  else None.

Fixpoint unhex (s : string) : option (list byte) :=
  match s with
  | EmptyString => Some []
  | String hi (String lo rest) =>
      match hex_value hi, hex_value lo, unhex rest with
      | Some h, Some l, Some bs =>
          match Byte.of_N (16 * h + l) with
          | Some b => Some (b :: bs)
          | None => None
          end
      | _, _, _ => None
      end
  | String _ EmptyString => None
  end.

(** ** Proof automation *)

(** Case analysis on a scrutinee that is not itself a case analysis. *)
Ltac plain_scrutinee x :=
  lazymatch x with
  | context [match _ with _ => _ end] => fail
  | _ => idtac
  end.

Ltac break_match :=
  match goal with
  | |- context [match ?x with _ => _ end] => plain_scrutinee x; destruct x eqn:?
  end.

Ltac run :=
  unfold handle, handleRegister, handleVerify, handleFileChange, axios_post,
    try_catch_finally, bind, rendered, ret, eval, await, alert, console_error,
    setFile, setDocHash, setStatus, setResult, setLoading, setErrorMessage,
    state_of, trace_of, run_of, error_msg, get, opt_get, call_substring0;
  cbn.

(** Case analysis on the backend's answer to the request in the goal. *)
Ltac answer backend :=
  match goal with
  | |- context [backend ?url ?body] => destruct (backend url body) eqn:?
  end;
  cbn in *.

Ltac crunch :=
  repeat (break_match; subst; cbn in *; try discriminate; try congruence);
  try reflexivity.

(** ** Test vectors and scenario runs *)

Example K_first_last :
  nth 0 Sha256.K 0%Z = 0x428a2f98%Z /\ nth 63 Sha256.K 0%Z = 0xc67178f2%Z
  /\ length Sha256.K = 64.
Proof. vm_compute. repeat split. Qed.

Example H0_first_last :
  Sha256.wa Sha256.H0 = 0x6a09e667%Z /\ Sha256.wh Sha256.H0 = 0x5be0cd19%Z.
Proof. vm_compute. repeat split. Qed.

Example sha256_abc :
  hashHex (Sha256.digest (bytes_of_string "abc"))
  = "ba7816bf8f01cfea414140de5dae2223b00361a396177a9cb410ff61f20015ad".
Proof. vm_compute. reflexivity. Qed.

Example sha256_empty :
  hashHex (Sha256.digest [])
  = "e3b0c44298fc1c149afbf4c8996fb92427ae41e4649b934ca495991b7852b855".
Proof. vm_compute. reflexivity. Qed.

Example sha256_two_blocks :
  hashHex (Sha256.digest (repeat x61 100))
  = "2816597888e4a0d3a36b82b83316ab32680eb8f00f8cd3b904d681246d285a0e".
Proof. vm_compute. reflexivity. Qed.

Example decimal_1024 : decimal 1024 = "1024".
Proof. reflexivity. Qed.

Example decimal_vectors :
  decimal (2 ^ 53 + 1) = "9007199254740992"
  /\ decimal (2 ^ 60) = "1152921504606847000"
  /\ decimal (10 ^ 20) = "100000000000000000000"
  /\ decimal (10 ^ 21) = "1e+21"
  /\ decimal (- 2 ^ 70) = "-1.1805916207174113e+21"
  /\ decimal (2 ^ 1024) = "Infinity".
Proof. vm_compute. repeat split. Qed.

Example hashReady_reached :
  handleFileChange secure_window (Some report_pdf) initialState
  = (Returned tt, hashReady, []).
Proof. vm_compute. reflexivity. Qed.

(** ** Properties of the hasher *)

Lemma byte_hex_two_digits (b : byte) :
  byte_hex b
  = String (hex_digit (Byte.to_N b / 16))
      (String (hex_digit (Byte.to_N b mod 16)) "").
Proof. destruct b; reflexivity. Qed.

Lemma byte_hex_lower (b : byte) :
  forallb is_lower_hex (list_ascii_of_string (byte_hex b)) = true.
Proof. destruct b; reflexivity. Qed.

Lemma byte_hex_length (b : byte) : String.length (byte_hex b) = 2.
Proof. rewrite byte_hex_two_digits. reflexivity. Qed.

Lemma hashHex_cons (b : byte) (bs : list byte) :
  hashHex (b :: bs) = byte_hex b ++ hashHex bs.
Proof.
  destruct bs as [|b' bs].
  - unfold hashHex. cbn [map String.concat].
    rewrite byte_hex_two_digits. reflexivity.
  - reflexivity.
Qed.

Lemma string_length_app (s1 s2 : string) :
  String.length (s1 ++ s2) = String.length s1 + String.length s2.
Proof.
  induction s1 as [|c s1 IH]; cbn; [reflexivity | now rewrite IH].
Qed.

Lemma hashHex_length (bs : list byte) :
  String.length (hashHex bs) = 2 * length bs.
Proof.
  induction bs as [|b bs IH].
  - reflexivity.
  - rewrite hashHex_cons, string_length_app, byte_hex_length, IH.
    cbn [length]. lia.
Qed.

Lemma list_ascii_of_string_app (s1 s2 : string) :
  list_ascii_of_string (s1 ++ s2)
  = (list_ascii_of_string s1 ++ list_ascii_of_string s2)%list.
Proof.
  induction s1 as [|c s1 IH]; cbn; [reflexivity | now rewrite IH].
Qed.

Lemma hashHex_lower (bs : list byte) :
  forallb is_lower_hex (list_ascii_of_string (hashHex bs)) = true.
Proof.
  induction bs as [|b bs IH].
  - reflexivity.
  - rewrite hashHex_cons, list_ascii_of_string_app, forallb_app, byte_hex_lower, IH.
    reflexivity.
Qed.

Lemma digest_length (buffer : list byte) : length (Sha256.digest buffer) = 32.
Proof. unfold Sha256.digest. rewrite length_map. reflexivity. Qed.

(** C6: for every byte sequence delivered by the reader, [calculateSha256]
    resolves with the hex rendering of the 32-byte SHA-256 digest: a string
    of exactly 64 characters, all of them lower-case hex digits, in which
    every digest byte is rendered as its two hex digits, high nibble first
    (so a byte below 16 gets a leading zero) and nothing in between. *)
Theorem calculateSha256_hex64 (name type : string) (size : Z) (buffer : list byte) :
  let hashHex_ := hashHex (Sha256.digest buffer) in
  calculateSha256 (mkWindow true) (mkFile name size type (Loaded buffer))
    = Fulfilled hashHex_
  /\ String.length hashHex_ = 64
  /\ forallb is_lower_hex (list_ascii_of_string hashHex_) = true
  /\ hashHex_
     = String.concat ""
         (map (fun b => String (hex_digit (Byte.to_N b / 16))
                          (String (hex_digit (Byte.to_N b mod 16)) ""))
              (Sha256.digest buffer)).
Proof.
  cbv zeta. repeat split.
  - rewrite hashHex_length, digest_length. reflexivity.
  - apply hashHex_lower.
  - unfold hashHex. f_equal. apply map_ext. intro b. apply byte_hex_two_digits.
Qed.

(** ** Properties of the handlers *)

(** C9: a file-selection event that delivers no file sets the file to
    null, the digest to the empty string and the status line to its initial
    text, and leaves [result], [errorMessage] (and [loading]) as they were;
    nothing is alerted or sent. *)
Theorem handleFileChange_no_file (window : Window) (s : State) :
  handleFileChange window None s
  = (Returned tt,
     mkState None "" "Select a file to begin..."
             (result s) (loading s) (errorMessage s),
     []).
Proof. reflexivity. Qed.

(** C4: when no digest is ready (the digest is empty or no file is
    selected) both [handleRegister] and [handleVerify] only raise the
    alert and return: the state is untouched and no request is sent. *)
Theorem action_rejected_without_digest
    (backend : string -> JsVal -> Promise JsVal) (a : Action) (s : State) :
  docHash s = "" \/ file s = None ->
  handle backend a s
    = (Returned tt, s, [Alert "Please select a file and compute the hash first."])
  /\ requests (trace_of (handle backend a s)) = [].
Proof.
  intros H.
  assert (E : handle backend a s
              = (Returned tt, s, [Alert "Please select a file and compute the hash first."])).
  { destruct a; run; destruct H as [H | H]; rewrite H; cbn;
      try reflexivity; destruct (docHash s =? ""); reflexivity. }
  rewrite E. split; reflexivity.
Qed.

Lemma action_rejected_without_digest_witness :
  handle never_answers Register initialState
    = (Returned tt, initialState,
       [Alert "Please select a file and compute the hash first."])
  /\ requests (trace_of (handle never_answers Register initialState)) = [].
Proof.
  apply (action_rejected_without_digest never_answers Register initialState).
  left. reflexivity.
Defined.

(** What a run of an action sends: the one request built from the
    rendered digest and file when the guard lets it through. *)
Lemma requests_handle (backend : string -> JsVal -> Promise JsVal)
    (a : Action) (s : State) :
  requests (trace_of (handle backend a s))
  = match (docHash s =? ""), file s with
    | false, Some f => [request_of a (docHash s) f]
    | _, _ => []
    end.
Proof.
  destruct a; run; destruct (docHash s =? ""), (file s); cbn; try reflexivity.
  all: answer backend; try reflexivity; crunch.
Qed.

(** No run of an action writes [docHash] or [file]. *)
Lemma handle_frame (backend : string -> JsVal -> Promise JsVal)
    (a : Action) (s : State) :
  docHash (state_of (handle backend a s)) = docHash s
  /\ file (state_of (handle backend a s)) = file s.
Proof.
  destruct a; run;
    destruct (docHash s =? "") eqn:Hd, (file s) eqn:Hf; cbn;
    try (split; congruence);
    answer backend; try (split; congruence); crunch; split; congruence.
Qed.

(** C7: a register invocation that passes the guard sends one request,
    whose body has exactly the five fields [docHash], [filename],
    [filesize], [mimeType], [uploader], filled from the digest and the
    file's descriptive properties; the body is the same whatever the
    file's content is.  A verify invocation that passes the guard sends one
    request whose body has the single field [docHash].  An invocation
    stopped by the guard sends nothing. *)
Theorem request_bodies (backend : string -> JsVal -> Promise JsVal) (s : State) :
  requests (trace_of (handleRegister backend s))
    = match (docHash s =? ""), file s with
      | false, Some f =>
          [ ("http://localhost:5000/api/documents/register",
             JObj [ ("docHash", JStr (docHash s));
                    ("filename", JStr (name f));
                    ("filesize", JNum (size f));
                    ("mimeType", JStr (type f));
                    ("uploader", JStr "ClientDemoUser") ]) ]
      | _, _ => []
      end
  /\ requests (trace_of (handleVerify backend s))
    = match (docHash s =? ""), file s with
      | false, Some _ =>
          [ ("http://localhost:5000/api/documents/verify",
             JObj [ ("docHash", JStr (docHash s)) ]) ]
      | _, _ => []
      end
  /\ (forall h n sz ty c c',
        register_payload h (mkFile n sz ty c) = register_payload h (mkFile n sz ty c')).
Proof.
  split; [| split]; [ | | reflexivity ].
  - change (handleRegister backend s) with (handle backend Register s).
    rewrite requests_handle.
    destruct (docHash s =? ""), (file s); reflexivity.
  - change (handleVerify backend s) with (handle backend Verify s).
    rewrite requests_handle.
    destruct (docHash s =? ""), (file s); reflexivity.
Qed.

(** C5: no run of register or verify, and so none that fails, changes
    [docHash] or [file]: after the run they equal their values before it.
    Hence the same action invoked again on the resulting state passes or
    fails the guard as before and sends the same request, without any
    rehashing. *)
Theorem action_keeps_digest_and_file
    (backend : string -> JsVal -> Promise JsVal) (a : Action) (s : State) :
  let s' := state_of (handle backend a s) in
  docHash s' = docHash s
  /\ file s' = file s
  /\ forall backend',
       requests (trace_of (handle backend' a s'))
       = requests (trace_of (handle backend' a s)).
Proof.
  cbv zeta. destruct (handle_frame backend a s) as [Hd Hf].
  repeat split; try assumption.
  intro backend'. rewrite !requests_handle, Hd, Hf. reflexivity.
Qed.

(** The run of an action whose request is rejected. *)
Lemma handle_rejected (backend : string -> JsVal -> Promise JsVal)
    (a : Action) (s : State) (f : File) (error : JsVal) :
  (docHash s =? "") = false -> file s = Some f ->
  backend (fst (request_of a (docHash s) f)) (snd (request_of a (docHash s) f))
    = Rejected error ->
  handle backend a s = caught a s (request_of a (docHash s) f) error.
Proof.
  intros Hd Hf Hb.
  destruct a; cbn in Hb;
    unfold handle, handleRegister, handleVerify, axios_post, try_catch_finally,
      bind, rendered, eval, await, console_error, setStatus, setResult,
      setLoading, setErrorMessage, caught;
    cbn -[error_msg to_string register_payload verify_payload]; rewrite Hd, Hf;
    cbn -[error_msg to_string register_payload verify_payload]; rewrite Hb;
    cbn -[error_msg to_string register_payload verify_payload];
    destruct (error_msg error) as [msg | e];
    cbn -[error_msg to_string register_payload verify_payload];
    try (destruct (to_string msg) as [text | e'];
         cbn -[error_msg to_string register_payload verify_payload]);
    rewrite ?Hf; reflexivity.
Qed.

(** C10: a run of the hashing step ends with [loading] false, whether the
    hash was computed or not; a run of register or verify that passed the
    guard and whose request was answered or failed ends (it is not left
    suspended) with [loading] false, on the success path and on every
    failure path. *)
Theorem loading_cleared (window : Window)
    (backend : string -> JsVal -> Promise JsVal) (s : State) :
  (forall selectedFile,
      run_of (handleFileChange window (Some selectedFile) s) <> Suspended
      /\ loading (state_of (handleFileChange window (Some selectedFile) s)) = false)
  /\ (forall a f,
        (docHash s =? "") = false -> file s = Some f ->
        is_settled (backend (fst (request_of a (docHash s) f))
                            (snd (request_of a (docHash s) f))) = true ->
        run_of (handle backend a s) <> Suspended
        /\ loading (state_of (handle backend a s)) = false).
Proof.
  split.
  - intro selectedFile. run. unfold calculateSha256.
    destruct (contents selectedFile) as [buffer | event];
      [destruct (subtle_defined window) |]; cbn.
    + split; [discriminate | reflexivity].
    + split; [discriminate | reflexivity].
    + destruct event; cbn; split; try discriminate; reflexivity.
  - intros a f Hd Hf Hb.
    destruct a; cbn in Hb; run; rewrite Hd, Hf; cbn;
      answer backend; try discriminate;
      crunch; split; try discriminate; reflexivity.
Qed.

Lemma loading_cleared_witness :
  loading (state_of (handleFileChange secure_window (Some unreadable_txt) hashReady)) = false
  /\ loading (state_of (handle (rejects (JObj [("message", JStr "Network Error")]))
                               Register hashReady)) = false
  /\ loading (state_of (handle (answers (JObj [("status", JStr "NOT_FOUND")]))
                               Verify hashReady)) = false.
Proof.
  split; [| split].
  - apply (loading_cleared secure_window never_answers hashReady).
  - apply (proj2 (loading_cleared secure_window
                    (rejects (JObj [("message", JStr "Network Error")])) hashReady)
             Register report_pdf); reflexivity.
  - apply (proj2 (loading_cleared secure_window
                    (answers (JObj [("status", JStr "NOT_FOUND")])) hashReady)
             Verify report_pdf); reflexivity.
Defined.

(** C1: when the verify request is answered, the status line is chosen by
    the [status] field of the response body alone: [VERIFIED_OK] gives the
    verified line, [VERIFIED_ON_CHAIN_ONLY] the on-chain-only line, and any
    other value of the field (absent included) the not-found line; the body
    is stored as the result whatever its other fields hold. *)
Theorem handleVerify_verdict (backend : string -> JsVal -> Promise JsVal)
    (s : State) (f : File) (response data data_status : JsVal) :
  (docHash s =? "") = false -> file s = Some f ->
  backend "http://localhost:5000/api/documents/verify" (verify_payload (docHash s))
    = Fulfilled response ->
  Js.get response "data" = Normal data ->
  Js.get data "status" = Normal data_status ->
  let s' := state_of (handleVerify backend s) in
  (data_status = JStr "VERIFIED_OK" ->
     status s' = "✅ Integrity **VERIFIED**. Document is original and registered on-chain.")
  /\ (data_status = JStr "VERIFIED_ON_CHAIN_ONLY" ->
     status s' = "⚠️ Hash found on-chain, but off-chain metadata is missing. Integrity check **OK**.")
  /\ (data_status <> JStr "VERIFIED_OK" ->
      data_status <> JStr "VERIFIED_ON_CHAIN_ONLY" ->
     status s' = "❌ Not found on-chain. Document is UNREGISTERED or TAMPERED.")
  /\ result s' = data
  /\ errorMessage s' = JStr "".
Proof.
  intros Hd Hf Hb Hr Hs.
  assert (E : state_of (handleVerify backend s)
              = mkState (file s) (docHash s) (newStatus data_status) data false (JStr "")).
  { unfold handleVerify, axios_post, try_catch_finally, bind, rendered, eval,
      await, setStatus, setResult, setLoading, setErrorMessage, state_of.
    cbn -[Js.get newStatus]. rewrite Hd, Hf.
    cbn -[Js.get newStatus]. rewrite Hb.
    cbn -[Js.get newStatus]. rewrite Hr.
    cbn -[Js.get newStatus]. rewrite Hs.
    cbn -[Js.get newStatus]. rewrite Hf. reflexivity. }
  cbv zeta. rewrite E. cbn [status result errorMessage].
  repeat split.
  - intros ->. reflexivity.
  - intros ->. reflexivity.
  - intros H1 H2. unfold newStatus, strict_eq_str.
    destruct data_status as [ | | b | n | st | fields]; try reflexivity.
    destruct (String.eqb_spec st "VERIFIED_OK") as [-> | _]; [congruence |].
    destruct (String.eqb_spec st "VERIFIED_ON_CHAIN_ONLY") as [-> | _]; [congruence |].
    reflexivity.
Qed.

Lemma handleVerify_verdict_witness :
  status (state_of (handleVerify (answers verified_ok_body) hashReady))
    = "✅ Integrity **VERIFIED**. Document is original and registered on-chain."
  /\ status (state_of (handleVerify (answers on_chain_only_body) hashReady))
    = "⚠️ Hash found on-chain, but off-chain metadata is missing. Integrity check **OK**."
  /\ status (state_of (handleVerify (answers not_found_body) hashReady))
    = "❌ Not found on-chain. Document is UNREGISTERED or TAMPERED.".
Proof.
  split; [| split].
  - apply (handleVerify_verdict (answers verified_ok_body) hashReady report_pdf
             (JObj [("data", verified_ok_body)]) verified_ok_body (JStr "VERIFIED_OK"));
      reflexivity.
  - apply (handleVerify_verdict (answers on_chain_only_body) hashReady report_pdf
             (JObj [("data", on_chain_only_body)]) on_chain_only_body
             (JStr "VERIFIED_ON_CHAIN_ONLY"));
      reflexivity.
  - apply (handleVerify_verdict (answers not_found_body) hashReady report_pdf
             (JObj [("data", not_found_body)]) not_found_body (JStr "NOT_FOUND"));
      try reflexivity; discriminate.
Defined.

(** When hashing the newly selected file fails, [docHash] is not written:
    it keeps the value it had before the selection. *)
Lemma handleFileChange_failed_hash_keeps_digest (window : Window)
    (selectedFile : File) (event : JsVal) (s : State) :
  contents selectedFile = ReadError event ->
  docHash (state_of (handleFileChange window (Some selectedFile) s)) = docHash s
  /\ file (state_of (handleFileChange window (Some selectedFile) s)) = Some selectedFile.
Proof.
  intros Hc. run. unfold calculateSha256. rewrite Hc. cbn.
  destruct event; cbn; split; reflexivity.
Qed.

(** C2: with [report.pdf] selected and hashed to [d1], selecting
    [notes.txt], whose read fails, leaves the session with the new file and
    the old digest [d1]: the result and error cells were reset, [docHash]
    was not.  Both buttons are enabled again, and a register request then
    carries [d1] with the descriptive fields of [notes.txt].  The sibling
    branch for an empty selection does clear the digest. *)
Theorem stale_digest_after_failed_hash :
  let s' := state_of (handleFileChange secure_window (Some unreadable_txt) hashReady) in
  docHash hashReady = d1
  /\ file s' = Some unreadable_txt
  /\ status s' = "Error calculating hash."
  /\ result s' = JNull
  /\ docHash s' = d1
  /\ button_disabled s' = false
  /\ requests (trace_of (handleRegister never_answers s'))
     = [ ("http://localhost:5000/api/documents/register",
          JObj [ ("docHash", JStr d1);
                 ("filename", JStr "notes.txt");
                 ("filesize", JNum 12);
                 ("mimeType", JStr "text/plain");
                 ("uploader", JStr "ClientDemoUser") ]) ]
  /\ docHash (state_of (handleFileChange secure_window None hashReady)) = "".
Proof. vm_compute. repeat split. Qed.

(** C3, as stated, fails: while the register request is pending
    ([loading] is true), [handleVerify] and [handleRegister] invoked again
    each send a new request. *)
Lemma action_started_while_loading :
  run_of (handleRegister never_answers hashReady) = Suspended
  /\ loading registering = true
  /\ requests (trace_of (handleVerify never_answers registering))
     = [ ("http://localhost:5000/api/documents/verify",
          JObj [ ("docHash", JStr d1) ]) ]
  /\ requests (trace_of (handleRegister never_answers registering))
     = [ ("http://localhost:5000/api/documents/register",
          JObj [ ("docHash", JStr d1);
                 ("filename", JStr "report.pdf");
                 ("filesize", JNum 1024);
                 ("mimeType", JStr "application/pdf");
                 ("uploader", JStr "ClientDemoUser") ]) ].
Proof. vm_compute. repeat split. Qed.

(** C3, amended: while [loading] is true both buttons are disabled, so a
    click neither changes the state nor sends a request.  The handlers
    themselves do not look at [loading]: invoked directly they send their
    request whenever a digest and a file are present. *)
Theorem actions_gated_by_surface_while_loading
    (backend : string -> JsVal -> Promise JsVal) (a : Action) (s : State) :
  loading s = true ->
  button_disabled s = true
  /\ click backend a s = (Returned tt, s, [])
  /\ requests (trace_of (click backend a s)) = []
  /\ requests (trace_of (handle backend a s))
     = match (docHash s =? ""), file s with
       | false, Some f => [request_of a (docHash s) f]
       | _, _ => []
       end.
Proof.
  intros Hl.
  assert (Hb : button_disabled s = true) by (unfold button_disabled; now rewrite Hl).
  assert (Hc : click backend a s = (Returned tt, s, [])).
  { destruct a; unfold click, click_register, click_verify; now rewrite Hb. }
  repeat split; try assumption.
  - rewrite Hc. reflexivity.
  - apply requests_handle.
Qed.

Lemma actions_gated_by_surface_while_loading_witness :
  button_disabled registering = true
  /\ click never_answers Verify registering = (Returned tt, registering, [])
  /\ requests (trace_of (click never_answers Verify registering)) = []
  /\ requests (trace_of (handle never_answers Verify registering))
     = [request_of Verify d1 report_pdf].
Proof.
  apply (actions_gated_by_surface_while_loading never_answers Verify registering).
  reflexivity.
Defined.

(** C8, as stated, fails: the error response contains a message (the empty
    string), yet the message surfaced is the error's own, not the
    backend's (with or without the prefix). *)
Lemma empty_backend_message_not_surfaced :
  let s' := state_of (handleRegister (rejects error_with_empty_message) hashReady) in
  opt_get (opt_get (opt_get error_with_empty_message "response") "data") "message"
    = JStr ""
  /\ errorMessage s' = JStr "Registration Failed: Request failed with status code 400"
  /\ errorMessage s' <> JStr ("Registration Failed: " ++ "")
  /\ errorMessage s' <> JStr "".
Proof. vm_compute. repeat split; discriminate. Qed.

(** C8, amended: when a register or verify request is rejected with an
    error object, the message surfaced is the action's prefix followed by
    the backend's [response.data.message] when that is a non-empty string,
    and otherwise, when the backend's message is absent, the empty string
    or falsy in another way, by the error's own [message] string; the
    status line is the action's failure line. *)
Theorem failure_message (backend : string -> JsVal -> Promise JsVal)
    (a : Action) (s : State) (f : File) (error response : JsVal) :
  (docHash s =? "") = false -> file s = Some f ->
  backend (fst (request_of a (docHash s) f)) (snd (request_of a (docHash s) f))
    = Rejected error ->
  Js.get error "response" = Normal response ->
  let backend_message := opt_get (opt_get response "data") "message" in
  let s' := state_of (handle backend a s) in
  (forall m, backend_message = JStr m -> m <> "" ->
     errorMessage s' = JStr (failure_prefix a ++ m)
     /\ status s' = failure_status a)
  /\ (forall own, truthy backend_message = false ->
      Js.get error "message" = Normal (JStr own) ->
     errorMessage s' = JStr (failure_prefix a ++ own)
     /\ status s' = failure_status a).
Proof.
  intros Hd Hf Hb Hr. cbv zeta.
  rewrite (handle_rejected backend a s f error Hd Hf Hb).
  unfold caught, error_msg. rewrite Hr. split.
  - intros m Hm Hne. rewrite Hm.
    assert (Ht : truthy (JStr m) = true).
    { cbn. destruct (String.eqb_spec m "") as [-> | _]; [congruence | reflexivity]. }
    rewrite Ht. cbn. split; reflexivity.
  - intros own Ht Ho. rewrite Ht, Ho. cbn. split; reflexivity.
Qed.

Lemma failure_message_witness :
  errorMessage (state_of (handle (rejects error_already_registered) Register hashReady))
    = JStr "Registration Failed: Document already registered"
  /\ errorMessage (state_of (handle (rejects error_network) Verify hashReady))
    = JStr "Verification Failed: Network Error".
Proof.
  split.
  - pose proof (failure_message (rejects error_already_registered) Register hashReady
                  report_pdf error_already_registered
                  (JObj [ ("status", JNum 409);
                          ("data", JObj [("message", JStr "Document already registered")]) ])
                  eq_refl eq_refl eq_refl eq_refl) as W.
    cbv zeta in W. destruct W as [W _].
    apply (W "Document already registered"); [reflexivity | discriminate].
  - pose proof (failure_message (rejects error_network) Verify hashReady
                  report_pdf error_network JUndefined
                  eq_refl eq_refl eq_refl eq_refl) as W.
    cbv zeta in W. destruct W as [_ W].
    apply (W "Network Error"); reflexivity.
Defined.

(** ** Further properties of the hasher *)

Lemma byte_hex_unhex (b : byte) (rest : string) (bs : list byte) :
  unhex rest = Some bs -> unhex (byte_hex b ++ rest) = Some (b :: bs).
Proof.
  intros H. destruct b; cbn [byte_hex]; vm_compute byte_hex;
    cbn [append unhex]; rewrite H; reflexivity.
Qed.

(** X1: the hex rendering loses nothing: reading the string back two
    digits at a time returns the bytes it was made from, so two byte
    sequences with the same rendering are the same sequence. *)
Theorem hashHex_lossless (hashArray : list byte) :
  unhex (hashHex hashArray) = Some hashArray
  /\ forall hashArray', hashHex hashArray = hashHex hashArray' -> hashArray = hashArray'.
Proof.
  assert (R : forall bs, unhex (hashHex bs) = Some bs).
  { induction bs as [|b bs IH]; [reflexivity |].
    rewrite hashHex_cons. now apply byte_hex_unhex. }
  split; [apply R |].
  intros bs' E. pose proof (R hashArray) as H1. rewrite E, R in H1. congruence.
Qed.

(** ** Further properties of [handleFileChange] *)

(** The whole run for a delivered file, by the settlement of the hash. *)
Lemma handleFileChange_selected (window : Window) (selectedFile : File) (s : State) :
  handleFileChange window (Some selectedFile) s
  = match calculateSha256 window selectedFile with
    | Pending =>
        (Suspended,
         mkState (Some selectedFile) (docHash s)
                 ("Calculating SHA-256 for: " ++ name selectedFile ++ "...")
                 JNull true (JStr ""),
         [])
    | Fulfilled hash =>
        (Returned tt,
         mkState (Some selectedFile) hash
                 ("Hash calculated: " ++ substring 0 10 hash ++ "...")
                 JNull false (JStr ""),
         [])
    | Rejected error =>
        match Js.get error "message" with
        | Normal message =>
            (Returned tt,
             mkState (Some selectedFile) (docHash s) "Error calculating hash."
                     JNull false message,
             [])
        | Throw e =>
            (Threw e,
             mkState (Some selectedFile) (docHash s) "Error calculating hash."
                     JNull false (JStr ""),
             [])
        end
    end.
Proof.
  run. destruct (calculateSha256 window selectedFile) as [ | hash | error]; cbn;
    try reflexivity.
  destruct error; reflexivity.
Qed.

Lemma hashHex_digest_is_hex64 (buffer : list byte) :
  is_hex64 (hashHex (Sha256.digest buffer)) = true.
Proof.
  unfold is_hex64.
  rewrite hashHex_length, digest_length, hashHex_lower. reflexivity.
Qed.

Lemma is_hex64_nonempty (h : string) : is_hex64 h = true -> (h =? "") = false.
Proof. destruct h; [discriminate | reflexivity]. Qed.

(** X2: when the file is read and [crypto.subtle] is there, selecting it
    ends with the file and its digest stored, the status line showing the
    first ten digits of the digest, result and error message cleared and
    [loading] off, whatever the session held before; both buttons are then
    enabled. *)
Theorem handleFileChange_hash_ready (window : Window) (selectedFile : File)
    (buffer : list byte) (s : State) :
  subtle_defined window = true ->
  contents selectedFile = Loaded buffer ->
  let hash := hashHex (Sha256.digest buffer) in
  let s' := state_of (handleFileChange window (Some selectedFile) s) in
  handleFileChange window (Some selectedFile) s
    = (Returned tt,
       mkState (Some selectedFile) hash
               ("Hash calculated: " ++ substring 0 10 hash ++ "...")
               JNull false (JStr ""),
       [])
  /\ String.length (substring 0 10 (docHash s')) = 10
  /\ button_disabled s' = false
  /\ input_disabled s' = false.
Proof.
  intros Hw Hc. cbv zeta. rewrite handleFileChange_selected.
  unfold calculateSha256. rewrite Hc, Hw. cbn [state_of fst snd docHash].
  pose proof (hashHex_digest_is_hex64 buffer) as Hx.
  repeat split.
  - unfold is_hex64 in Hx. apply andb_prop in Hx. destruct Hx as [Hl _].
    apply Nat.eqb_eq in Hl.
    destruct (hashHex (Sha256.digest buffer)) as [|c0 [|c1 [|c2 [|c3 [|c4
      [|c5 [|c6 [|c7 [|c8 [|c9 r]]]]]]]]]]; cbn in Hl; try discriminate.
    destruct r; reflexivity.
  - unfold button_disabled. cbn [loading docHash].
    rewrite (is_hex64_nonempty _ Hx). reflexivity.
Qed.

Lemma handleFileChange_hash_ready_witness :
  state_of (handleFileChange secure_window (Some report_pdf) initialState) = hashReady
  /\ button_disabled (state_of (handleFileChange secure_window (Some report_pdf) initialState))
     = false.
Proof.
  pose proof (handleFileChange_hash_ready secure_window report_pdf
                (repeat "a"%byte 1024) initialState eq_refl eq_refl) as W.
  cbv zeta in W. destruct W as [W1 [_ [W2 _]]].
  split; [| exact W2].
  rewrite W1. vm_compute. reflexivity.
Defined.

(** X3: when hashing fails (the read fails, or [crypto.subtle] is
    missing), the status line is the hash error, the error message is
    whatever the rejection's [message] property holds, [loading] is off and
    nothing is sent or alerted.  A read-error event carries no [message],
    so the error message becomes [undefined] and no error line is
    rendered; the missing-[subtle] TypeError does show its message. *)
Theorem handleFileChange_hash_failure (window : Window) (selectedFile : File)
    (s : State) (error message : JsVal) :
  calculateSha256 window selectedFile = Rejected error ->
  Js.get error "message" = Normal message ->
  let s' := state_of (handleFileChange window (Some selectedFile) s) in
  handleFileChange window (Some selectedFile) s
    = (Returned tt,
       mkState (Some selectedFile) (docHash s) "Error calculating hash."
               JNull false message,
       [])
  /\ (forall fields, contents selectedFile = ReadError (JObj fields) ->
      lookup "message" fields = JUndefined ->
      errorMessage s' = JUndefined /\ error_line_shown s' = false)
  /\ (forall buffer, contents selectedFile = Loaded buffer ->
      exists text, errorMessage s' = JStr text /\ error_line_shown s' = true).
Proof.
  intros Hr Hm. cbv zeta. rewrite handleFileChange_selected, Hr, Hm.
  cbn [state_of fst snd errorMessage].
  split; [reflexivity |]. split.
  - intros fields Hc Hl. unfold calculateSha256 in Hr. rewrite Hc in Hr.
    injection Hr as <-. cbn in Hm. rewrite Hl in Hm. injection Hm as <-.
    split; reflexivity.
  - intros buffer Hc. unfold calculateSha256 in Hr. rewrite Hc in Hr.
    destruct (subtle_defined window); [discriminate |].
    injection Hr as <-. cbn in Hm. injection Hm as <-.
    eexists. split; reflexivity.
Qed.

Lemma handleFileChange_hash_failure_witness :
  handleFileChange secure_window (Some unreadable_txt) hashReady
    = (Returned tt,
       mkState (Some unreadable_txt) d1 "Error calculating hash." JNull false JUndefined,
       [])
  /\ error_line_shown
       (state_of (handleFileChange secure_window (Some unreadable_txt) hashReady)) = false.
Proof.
  pose proof (handleFileChange_hash_failure secure_window unreadable_txt hashReady
                (JObj [("type", JStr "error")]) JUndefined eq_refl eq_refl) as W.
  cbv zeta in W. destruct W as [W1 [W2 _]].
  split; [exact W1 |].
  apply (W2 [("type", JStr "error")]); reflexivity.
Defined.

(** The trace of [handleFileChange] is empty in every case. *)
Lemma handleFileChange_trace (window : Window)
    (e_target_files_0 : option File) (s : State) :
  trace_of (handleFileChange window e_target_files_0 s) = [].
Proof.
  destruct e_target_files_0 as [selectedFile |]; [| reflexivity].
  rewrite handleFileChange_selected.
  destruct (calculateSha256 window selectedFile) as [ | hash | error];
    try reflexivity.
  destruct (Js.get error "message"); reflexivity.
Qed.

(** X4: hashing is local: whatever is selected (a file or nothing), in
    whatever state and environment, [handleFileChange] sends no request,
    raises no alert and logs nothing. *)
Theorem handleFileChange_silent (window : Window)
    (e_target_files_0 : option File) (s : State) :
  trace_of (handleFileChange window e_target_files_0 s) = []
  /\ requests (trace_of (handleFileChange window e_target_files_0 s)) = []
  /\ alerts (trace_of (handleFileChange window e_target_files_0 s)) = [].
Proof.
  rewrite handleFileChange_trace. repeat split.
Qed.

(** ** Further properties of [handleRegister] and [handleVerify] *)

Lemma error_msg_TypeError (message : string) :
  error_msg (TypeError message) = Normal (JStr message).
Proof. reflexivity. Qed.

(** [response.data.receipt.transactionHash.substring(0, 10)] yields a
    prefix exactly when the transaction hash is a string, and throws a
    TypeError otherwise. *)
Lemma tx_prefix_spec (data : JsVal) :
  (exists h, opt_get (opt_get data "receipt") "transactionHash" = JStr h
             /\ tx_prefix data = Normal (substring 0 10 h))
  \/ ((forall h, opt_get (opt_get data "receipt") "transactionHash" <> JStr h)
      /\ exists message, tx_prefix data = Throw (TypeError message)).
Proof.
  unfold tx_prefix, Js.get, call_substring0.
  destruct data as [ | | b | n | d | fields]; cbn;
    try (right; split; [intros h; discriminate | eexists; reflexivity]).
  destruct (lookup "receipt" fields) as [ | | b | n | d | rfields]; cbn;
    try (right; split; [intros h; discriminate | eexists; reflexivity]).
  destruct (lookup "transactionHash" rfields) as [ | | b | n | h | tfields]; cbn;
    try (right; split; [intros h'; discriminate | eexists; reflexivity]).
  left. exists h. split; reflexivity.
Qed.

(** The run of [handleRegister] once the guard is passed and the request
    is answered with a response object. *)
Lemma handleRegister_answered (backend : string -> JsVal -> Promise JsVal)
    (s : State) (f : File) (response data : JsVal) :
  (docHash s =? "") = false -> file s = Some f ->
  backend "http://localhost:5000/api/documents/register"
          (register_payload (docHash s) f) = Fulfilled response ->
  Js.get response "data" = Normal data ->
  handleRegister backend s
  = match tx_prefix data with
    | Normal tx =>
        (Returned tt,
         mkState (file s) (docHash s) ("✅ Registered! TX: " ++ tx ++ "...")
                 data false (JStr ""),
         [Post "http://localhost:5000/api/documents/register"
               (register_payload (docHash s) f)])
    | Throw e => caught Register s (request_of Register (docHash s) f) e
    end.
Proof.
  intros Hd Hf Hb Hr.
  unfold handleRegister, axios_post, try_catch_finally, bind, rendered, eval,
    await, console_error, setStatus, setResult, setLoading, setErrorMessage,
    tx_prefix, caught.
  cbn -[Js.get call_substring0 error_msg to_string register_payload]. rewrite Hd, Hf.
  cbn -[Js.get call_substring0 error_msg to_string register_payload]. rewrite Hb.
  cbn -[Js.get call_substring0 error_msg to_string register_payload]. rewrite Hr.
  cbn -[Js.get call_substring0 error_msg to_string register_payload].
  destruct (Js.get data "receipt") as [receipt | e];
    cbn -[Js.get call_substring0 error_msg to_string register_payload];
    [destruct (Js.get receipt "transactionHash") as [th | e];
     cbn -[Js.get call_substring0 error_msg to_string register_payload];
     [destruct (call_substring0 th 10) as [tx | e];
      cbn -[Js.get call_substring0 error_msg to_string register_payload];
      [rewrite Hf; reflexivity |] |] |];
    (destruct (error_msg e) as [msg | e'];
     cbn -[Js.get call_substring0 error_msg to_string register_payload];
     try (destruct (to_string msg) as [text | e''];
          cbn -[Js.get call_substring0 error_msg to_string register_payload]);
     rewrite ?Hf; reflexivity).
Qed.

(** X5: a register request answered with a body whose
    [receipt.transactionHash] is an ASCII string ends in the registered
    state: the status line shows the first ten characters of the
    transaction hash, the body is stored as the result (so the details
    panel is rendered), the error message is empty, [loading] is off, and
    exactly the one request went out. *)
Theorem handleRegister_receipt (backend : string -> JsVal -> Promise JsVal)
    (s : State) (f : File) (response data : JsVal) (transactionHash : string) :
  (docHash s =? "") = false -> file s = Some f ->
  backend "http://localhost:5000/api/documents/register"
          (register_payload (docHash s) f) = Fulfilled response ->
  Js.get response "data" = Normal data ->
  opt_get (opt_get data "receipt") "transactionHash" = JStr transactionHash ->
  ascii_only transactionHash = true ->
  handleRegister backend s
    = (Returned tt,
       mkState (file s) (docHash s)
               ("✅ Registered! TX: " ++ substring 0 10 transactionHash ++ "...")
               data false (JStr ""),
       [Post "http://localhost:5000/api/documents/register"
             (register_payload (docHash s) f)])
  /\ details_shown (state_of (handleRegister backend s)) = true.
Proof.
  intros Hd Hf Hb Hr Ht _.
  rewrite (handleRegister_answered backend s f response data Hd Hf Hb Hr).
  destruct (tx_prefix_spec data) as [[h [Hh Hp]] | [Hn _]].
  - rewrite Hp. rewrite Ht in Hh. injection Hh as <-. split; [reflexivity |].
    unfold details_shown. cbn [state_of fst snd result].
    destruct data; try discriminate. reflexivity.
  - exfalso. apply (Hn transactionHash). exact Ht.
Qed.

Lemma handleRegister_receipt_witness :
  status (state_of (handleRegister (answers receipt_body) hashReady))
    = "✅ Registered! TX: 0xabc12345..."
  /\ result (state_of (handleRegister (answers receipt_body) hashReady)) = receipt_body.
Proof.
  pose proof (handleRegister_receipt (answers receipt_body) hashReady report_pdf
                (JObj [("data", receipt_body)]) receipt_body "0xabc1234567890def"
                eq_refl eq_refl eq_refl eq_refl eq_refl eq_refl) as [W _].
  rewrite W. split; reflexivity.
Defined.

(** X6: a register request that the backend answers successfully, but
    with a body in which [receipt.transactionHash] is not a string (no
    receipt, no hash, a number), is reported as a failed registration: the
    TypeError raised while building the status line is caught, its message
    is surfaced behind the prefix, the result stays null and the error is
    logged. *)
Theorem handleRegister_malformed_receipt (backend : string -> JsVal -> Promise JsVal)
    (s : State) (f : File) (response data : JsVal) :
  (docHash s =? "") = false -> file s = Some f ->
  backend "http://localhost:5000/api/documents/register"
          (register_payload (docHash s) f) = Fulfilled response ->
  Js.get response "data" = Normal data ->
  (forall h, opt_get (opt_get data "receipt") "transactionHash" <> JStr h) ->
  exists message,
    handleRegister backend s
    = (Returned tt,
       mkState (file s) (docHash s) "Registration failed." JNull false
               (JStr ("Registration Failed: " ++ message)),
       [Post "http://localhost:5000/api/documents/register"
             (register_payload (docHash s) f);
        ConsoleError (TypeError message)]).
Proof.
  intros Hd Hf Hb Hr Hn.
  rewrite (handleRegister_answered backend s f response data Hd Hf Hb Hr).
  destruct (tx_prefix_spec data) as [[h [Hh _]] | [_ [message Hp]]].
  - exfalso. apply (Hn h). exact Hh.
  - exists message. rewrite Hp. unfold caught. rewrite error_msg_TypeError.
    reflexivity.
Qed.

Lemma handleRegister_malformed_receipt_witness :
  exists message,
    handleRegister (answers (JObj [("ok", JBool true)])) hashReady
    = (Returned tt,
       mkState (Some report_pdf) d1 "Registration failed." JNull false
               (JStr ("Registration Failed: " ++ message)),
       [Post "http://localhost:5000/api/documents/register"
             (register_payload d1 report_pdf);
        ConsoleError (TypeError message)]).
Proof.
  apply (handleRegister_malformed_receipt (answers (JObj [("ok", JBool true)]))
           hashReady report_pdf
           (JObj [("data", JObj [("ok", JBool true)])]) (JObj [("ok", JBool true)]));
    try reflexivity.
  intros h. discriminate.
Defined.

(** The run of [handleVerify] once the guard is passed and the request is
    answered with a response object. *)
Lemma handleVerify_answered (backend : string -> JsVal -> Promise JsVal)
    (s : State) (f : File) (response data : JsVal) :
  (docHash s =? "") = false -> file s = Some f ->
  backend "http://localhost:5000/api/documents/verify"
          (verify_payload (docHash s)) = Fulfilled response ->
  Js.get response "data" = Normal data ->
  handleVerify backend s
  = match Js.get data "status" with
    | Normal data_status =>
        (Returned tt,
         mkState (file s) (docHash s) (newStatus data_status) data false (JStr ""),
         [Post "http://localhost:5000/api/documents/verify"
               (verify_payload (docHash s))])
    | Throw e => caught Verify s (request_of Verify (docHash s) f) e
    end.
Proof.
  intros Hd Hf Hb Hr.
  unfold handleVerify, axios_post, try_catch_finally, bind, rendered, eval,
    await, console_error, setStatus, setResult, setLoading, setErrorMessage, caught.
  cbn -[Js.get error_msg to_string verify_payload newStatus]. rewrite Hd, Hf.
  cbn -[Js.get error_msg to_string verify_payload newStatus]. rewrite Hb.
  cbn -[Js.get error_msg to_string verify_payload newStatus]. rewrite Hr.
  cbn -[Js.get error_msg to_string verify_payload newStatus].
  destruct (Js.get data "status") as [st | e];
    cbn -[Js.get error_msg to_string verify_payload newStatus].
  - rewrite Hf. reflexivity.
  - destruct (error_msg e) as [msg | e'];
      cbn -[Js.get error_msg to_string verify_payload newStatus];
      try (destruct (to_string msg) as [text | e''];
           cbn -[Js.get error_msg to_string verify_payload newStatus]);
      rewrite ?Hf; reflexivity.
Qed.

(** X7: a verify request answered with a null (or undefined) body gives
    no verdict at all: reading [data.status] throws, and the run ends in
    the failed state with the TypeError's message surfaced, the result
    null and the error logged. *)
Theorem handleVerify_null_body (backend : string -> JsVal -> Promise JsVal)
    (s : State) (f : File) (response data : JsVal) :
  (docHash s =? "") = false -> file s = Some f ->
  backend "http://localhost:5000/api/documents/verify"
          (verify_payload (docHash s)) = Fulfilled response ->
  Js.get response "data" = Normal data ->
  data = JNull \/ data = JUndefined ->
  exists message,
    handleVerify backend s
    = (Returned tt,
       mkState (file s) (docHash s) "Verification failed." JNull false
               (JStr ("Verification Failed: " ++ message)),
       [Post "http://localhost:5000/api/documents/verify" (verify_payload (docHash s));
        ConsoleError (TypeError message)]).
Proof.
  intros Hd Hf Hb Hr Hn.
  rewrite (handleVerify_answered backend s f response data Hd Hf Hb Hr).
  destruct Hn as [-> | ->]; eexists; reflexivity.
Qed.

Lemma handleVerify_null_body_witness :
  exists message,
    handleVerify (answers JNull) hashReady
    = (Returned tt,
       mkState (Some report_pdf) d1 "Verification failed." JNull false
               (JStr ("Verification Failed: " ++ message)),
       [Post "http://localhost:5000/api/documents/verify" (verify_payload d1);
        ConsoleError (TypeError message)]).
Proof.
  apply (handleVerify_null_body (answers JNull) hashReady report_pdf
           (JObj [("data", JNull)]) JNull); try reflexivity.
  left. reflexivity.
Defined.

(** ** Properties of the rendered surface *)

Lemma getStatusStyle_newStatus (data_status : JsVal) :
  getStatusStyle (newStatus data_status)
  = if strict_eq_str data_status "VERIFIED_OK"
       || strict_eq_str data_status "VERIFIED_ON_CHAIN_ONLY"
    then mkStyle "gray" None
    else mkStyle "red" (Some "bold").
Proof.
  unfold newStatus.
  destruct (strict_eq_str data_status "VERIFIED_OK");
    [vm_compute; reflexivity |].
  destruct (strict_eq_str data_status "VERIFIED_ON_CHAIN_ONLY");
    vm_compute; reflexivity.
Qed.

(** X8: after an answered verify the status line is never styled green:
    the green test looks for the text [VERIFIED_OK], which none of the
    three verdict lines contains.  The two verified lines are rendered in
    the default gray, the not-found line in bold red. *)
Theorem verdict_line_style (backend : string -> JsVal -> Promise JsVal)
    (s : State) (f : File) (response data data_status : JsVal) :
  (docHash s =? "") = false -> file s = Some f ->
  backend "http://localhost:5000/api/documents/verify"
          (verify_payload (docHash s)) = Fulfilled response ->
  Js.get response "data" = Normal data ->
  Js.get data "status" = Normal data_status ->
  let style := getStatusStyle (status (state_of (handleVerify backend s))) in
  style <> mkStyle "green" (Some "bold")
  /\ (data_status = JStr "VERIFIED_OK" \/ data_status = JStr "VERIFIED_ON_CHAIN_ONLY" ->
      style = mkStyle "gray" None)
  /\ (data_status <> JStr "VERIFIED_OK" ->
      data_status <> JStr "VERIFIED_ON_CHAIN_ONLY" ->
      style = mkStyle "red" (Some "bold")).
Proof.
  intros Hd Hf Hb Hr Hs. cbv zeta.
  rewrite (handleVerify_answered backend s f response data Hd Hf Hb Hr), Hs.
  cbn [state_of fst snd status]. rewrite getStatusStyle_newStatus.
  repeat split.
  - destruct (_ || _); discriminate.
  - intros [-> | ->]; reflexivity.
  - intros H1 H2. unfold strict_eq_str.
    destruct data_status as [ | | b | n | st | fields]; try reflexivity.
    destruct (String.eqb_spec st "VERIFIED_OK") as [-> | _]; [congruence |].
    destruct (String.eqb_spec st "VERIFIED_ON_CHAIN_ONLY") as [-> | _]; [congruence |].
    reflexivity.
Qed.

Lemma verdict_line_style_witness :
  getStatusStyle (status (state_of (handleVerify (answers verified_ok_body) hashReady)))
    = mkStyle "gray" None
  /\ getStatusStyle (status (state_of (handleVerify (answers not_found_body) hashReady)))
    = mkStyle "red" (Some "bold").
Proof.
  split.
  - pose proof (verdict_line_style (answers verified_ok_body) hashReady report_pdf
                  (JObj [("data", verified_ok_body)]) verified_ok_body
                  (JStr "VERIFIED_OK") eq_refl eq_refl eq_refl eq_refl eq_refl) as W.
    cbv zeta in W. destruct W as [_ [W _]]. apply W. left. reflexivity.
  - pose proof (verdict_line_style (answers not_found_body) hashReady report_pdf
                  (JObj [("data", not_found_body)]) not_found_body
                  (JStr "NOT_FOUND") eq_refl eq_refl eq_refl eq_refl eq_refl) as W.
    cbv zeta in W. destruct W as [_ [_ W]]. apply W; discriminate.
Defined.

(** X9: the failure lines are styled dark red.  A failed hash always
    shows one.  A rejected register or verify request shows one whenever
    its [catch] block runs to its end, that is, when the message can be
    read from the error and converted to a string.  When it cannot (the
    rejection value is null or undefined, or the message is an object with
    an own [toString] property) the [catch] block throws before the status
    is set: the in-progress line stays, styled gray. *)
Theorem failure_line_style (window : Window)
    (backend : string -> JsVal -> Promise JsVal) (s : State) :
  (forall selectedFile error,
      calculateSha256 window selectedFile = Rejected error ->
      getStatusStyle (status (state_of (handleFileChange window (Some selectedFile) s)))
        = mkStyle "darkred" None)
  /\ (forall a f error msg text,
      (docHash s =? "") = false -> file s = Some f ->
      backend (fst (request_of a (docHash s) f)) (snd (request_of a (docHash s) f))
        = Rejected error ->
      error_msg error = Normal msg -> to_string msg = Normal text ->
      status (state_of (handle backend a s)) = failure_status a
      /\ getStatusStyle (status (state_of (handle backend a s))) = mkStyle "darkred" None)
  /\ (forall a f error e,
      (docHash s =? "") = false -> file s = Some f ->
      backend (fst (request_of a (docHash s) f)) (snd (request_of a (docHash s) f))
        = Rejected error ->
      error_msg error = Throw e
      \/ (exists msg, error_msg error = Normal msg /\ to_string msg = Throw e) ->
      run_of (handle backend a s) = Threw e
      /\ status (state_of (handle backend a s)) = progress_status a
      /\ getStatusStyle (status (state_of (handle backend a s))) = mkStyle "gray" None).
Proof.
  split; [| split].
  - intros selectedFile error Hc.
    rewrite handleFileChange_selected, Hc.
    destruct (Js.get error "message"); vm_compute; reflexivity.
  - intros a f error msg text Hd Hf Hb Hm Ht.
    rewrite (handle_rejected backend a s f error Hd Hf Hb).
    unfold caught. rewrite Hm, Ht. cbn [state_of fst snd status].
    split; [reflexivity |]. destruct a; vm_compute; reflexivity.
  - intros a f error e Hd Hf Hb Hm.
    rewrite (handle_rejected backend a s f error Hd Hf Hb).
    unfold caught.
    destruct Hm as [Hm | [msg [Hm Ht]]]; rewrite Hm; try rewrite Ht;
      cbn [run_of state_of fst snd status];
      (split; [reflexivity |]); (split; [reflexivity |]);
      destruct a; vm_compute; reflexivity.
Qed.

Lemma failure_line_style_witness :
  getStatusStyle
    (status (state_of (handleFileChange secure_window (Some unreadable_txt) hashReady)))
    = mkStyle "darkred" None
  /\ getStatusStyle (status (state_of (handle (rejects error_network) Verify hashReady)))
    = mkStyle "darkred" None
  /\ getStatusStyle (status (state_of (handle (rejects error_unprintable) Register hashReady)))
    = mkStyle "gray" None.
Proof.
  split; [| split].
  - apply (proj1 (failure_line_style secure_window (rejects error_network) hashReady)
             unreadable_txt (JObj [("type", JStr "error")])). reflexivity.
  - apply (proj1 (proj2 (failure_line_style secure_window (rejects error_network) hashReady))
             Verify report_pdf error_network (JStr "Network Error") "Network Error");
      reflexivity.
  - apply (proj2 (proj2 (failure_line_style secure_window (rejects error_unprintable)
                           hashReady))
             Register report_pdf error_unprintable
             (TypeError "Cannot convert object to primitive value"));
      try reflexivity.
    right. eexists. split; reflexivity.
Defined.

(** X10: while the request of an action is pending, the run is suspended
    with [loading] set: the clicked button shows its busy caption, the
    other one keeps its idle caption, and both buttons and the file input
    are disabled. *)
Theorem pending_action_surface (backend : string -> JsVal -> Promise JsVal)
    (a : Action) (s : State) (f : File) :
  (docHash s =? "") = false -> file s = Some f ->
  backend (fst (request_of a (docHash s) f)) (snd (request_of a (docHash s) f))
    = Pending ->
  let s' := state_of (handle backend a s) in
  run_of (handle backend a s) = Suspended
  /\ register_label s'
     = match a with Register => "⏳ Registering..." | Verify => "📝 Register Document" end
  /\ verify_label s'
     = match a with Register => "🔍 Verify Integrity" | Verify => "⏳ Verifying..." end
  /\ button_disabled s' = true
  /\ input_disabled s' = true
  /\ docHash s' = docHash s /\ file s' = file s.
Proof.
  intros Hd Hf Hb. cbv zeta.
  destruct a; cbn in Hb;
    unfold handle, handleRegister, handleVerify, axios_post, try_catch_finally,
      bind, rendered, eval, await, setStatus, setResult, setLoading,
      setErrorMessage, state_of, run_of;
    cbn -[register_payload verify_payload register_label verify_label];
    rewrite Hd, Hf;
    cbn -[register_payload verify_payload register_label verify_label];
    rewrite Hb;
    cbn -[register_payload verify_payload register_label verify_label];
    rewrite Hf; repeat split; vm_compute; reflexivity.
Qed.

Lemma pending_action_surface_witness :
  register_label (state_of (handle never_answers Register hashReady)) = "⏳ Registering..."
  /\ verify_label (state_of (handle never_answers Verify hashReady)) = "⏳ Verifying...".
Proof.
  split.
  - pose proof (pending_action_surface never_answers Register hashReady report_pdf
                  eq_refl eq_refl eq_refl) as W.
    cbv zeta in W. destruct W as [_ [W _]]. exact W.
  - pose proof (pending_action_surface never_answers Verify hashReady report_pdf
                  eq_refl eq_refl eq_refl) as W.
    cbv zeta in W. destruct W as [_ [_ [W _]]]. exact W.
Defined.

(** ** Sessions *)

Lemma alerts_app (t1 t2 : list Effect) :
  alerts (t1 ++ t2) = (alerts t1 ++ alerts t2)%list.
Proof.
  induction t1 as [|e t1 IH]; [reflexivity |].
  destruct e; cbn; rewrite IH; reflexivity.
Qed.

Lemma requests_app (t1 t2 : list Effect) :
  requests (t1 ++ t2) = (requests t1 ++ requests t2)%list.
Proof.
  induction t1 as [|e t1 IH]; [reflexivity |].
  destruct e; cbn; rewrite IH; reflexivity.
Qed.

(** An action that passes the guard raises no alert. *)
Lemma alerts_handle (backend : string -> JsVal -> Promise JsVal)
    (a : Action) (s : State) (f : File) :
  (docHash s =? "") = false -> file s = Some f ->
  alerts (trace_of (handle backend a s)) = [].
Proof.
  intros Hd Hf.
  destruct a; run; rewrite Hd, Hf; cbn; answer backend; try reflexivity; crunch.
Qed.

(** An answered action leaves [loading] off. *)
Lemma loading_handle (backend : string -> JsVal -> Promise JsVal)
    (a : Action) (s : State) :
  (forall url body, is_settled (backend url body) = true) ->
  loading s = false ->
  loading (state_of (handle backend a s)) = false.
Proof.
  intros Hb Hl.
  destruct a; run;
    destruct (docHash s =? "") eqn:Hd, (file s) eqn:Hf; cbn; try assumption;
    match goal with
    | |- context [backend ?url ?body] =>
        pose proof (Hb url body) as Hs; destruct (backend url body) eqn:?
    end; cbn in *; try discriminate; crunch.
Qed.

Lemma calculateSha256_settles (window : Window) (selectedFile : File) :
  (exists buffer, calculateSha256 window selectedFile
                  = Fulfilled (hashHex (Sha256.digest buffer)))
  \/ (exists error, calculateSha256 window selectedFile = Rejected error).
Proof.
  unfold calculateSha256.
  destruct (contents selectedFile) as [buffer | event];
    [destruct (subtle_defined window) |].
  - left. exists buffer. reflexivity.
  - right. eexists. reflexivity.
  - right. eexists. reflexivity.
Qed.

Lemma handleFileChange_inv (window : Window) (e_target_files_0 : option File)
    (s : State) :
  session_inv s ->
  session_inv (state_of (handleFileChange window e_target_files_0 s))
  /\ (loading s = false ->
      loading (state_of (handleFileChange window e_target_files_0 s)) = false).
Proof.
  intros [Hx Hf].
  destruct e_target_files_0 as [selectedFile |].
  - rewrite handleFileChange_selected.
    destruct (calculateSha256_settles window selectedFile) as [[buffer ->] | [error ->]].
    + cbn [state_of fst snd]. split; [| reflexivity]. split; cbn [docHash file].
      * rewrite hashHex_digest_is_hex64. apply orb_true_r.
      * discriminate.
    + destruct (Js.get error "message"); cbn [state_of fst snd];
        (split; [| reflexivity]); (split; cbn [docHash file]; [exact Hx | discriminate]).
  - cbn. split; [| intros Hl; exact Hl].
    split; [reflexivity | discriminate].
Qed.

Lemma carries_request_of (a : Action) (h : string) (f : File) :
  carries_hex64_digest (request_of a h f) = is_hex64 h.
Proof. destruct a; reflexivity. Qed.

(** One event of the surface: what it keeps and what it emits. *)
Lemma surface_step (ev : Event) (s : State) :
  session_inv s ->
  session_inv (state_of (surface ev s))
  /\ alerts (trace_of (surface ev s)) = []
  /\ forallb carries_hex64_digest (requests (trace_of (surface ev s))) = true
  /\ (answered ev -> loading s = false -> loading (state_of (surface ev s)) = false).
Proof.
  intros Hinv. destruct ev as [window e0 | a backend]; cbn [surface answered].
  - unfold change_file. destruct (input_disabled s) eqn:Hi.
    + cbn. repeat split; try apply Hinv. intros _ Hl. exact Hl.
    + destruct (handleFileChange_inv window e0 s Hinv) as [H1 H2].
      rewrite handleFileChange_trace. repeat split; try apply H1.
      intros _. exact H2.
  - assert (E : click backend a s
                = if button_disabled s then (Returned tt, s, []) else handle backend a s)
      by (destruct a; reflexivity).
    rewrite E. destruct (button_disabled s) eqn:Hb.
    + cbn. repeat split; try apply Hinv. intros _ Hl. exact Hl.
    + unfold button_disabled in Hb. apply orb_false_elim in Hb. destruct Hb as [Hl Hd].
      destruct Hinv as [Hx Hf]. rewrite Hd in Hx. cbn in Hx.
      destruct (file s) as [f |] eqn:Hfile; [| exfalso; now apply (Hf Hd)].
      destruct (handle_frame backend a s) as [Fd Ff].
      repeat split.
      * rewrite Fd, Hd. exact Hx.
      * rewrite Ff, Hfile. discriminate.
      * apply (alerts_handle backend a s f Hd Hfile).
      * rewrite requests_handle, Hd, Hfile. cbn [forallb].
        rewrite carries_request_of, Hx. reflexivity.
      * intros Ha _. apply loading_handle; assumption.
Qed.

Lemma initialState_inv : session_inv initialState.
Proof. split; [reflexivity | discriminate]. Qed.

(** A whole session, from any state that satisfies the invariant. *)
Lemma session_from (evs : list Event) (s : State) :
  session_inv s ->
  session_inv (fst (session evs s))
  /\ alerts (snd (session evs s)) = []
  /\ forallb carries_hex64_digest (requests (snd (session evs s))) = true
  /\ (Forall answered evs -> loading s = false -> loading (fst (session evs s)) = false).
Proof.
  revert s. induction evs as [|ev evs IH]; intros s Hinv.
  - cbn. repeat split; try apply Hinv. intros _ Hl. exact Hl.
  - destruct (surface_step ev s Hinv) as [S1 [S2 [S3 S4]]].
    destruct (IH _ S1) as [I1 [I2 [I3 I4]]].
    cbn [session fst snd]. repeat split; try apply I1.
    + rewrite alerts_app, S2, I2. reflexivity.
    + rewrite requests_app, forallb_app, S3, I3. reflexivity.
    + intros Ha Hl. inversion Ha as [| ? ? Hev Hevs]; subst.
      apply I4; [assumption |]. apply S4; assumption.
Qed.

(** X11: in every session driven through the surface, the digest cell is
    either empty or a string of 64 lower-case hex digits, and a non-empty
    digest always comes with a selected file (so whenever a button is
    enabled, the handler's own guard lets the action through). *)
Theorem session_digest_invariant (evs : list Event) :
  let s := fst (session evs initialState) in
  (docHash s = "" \/ is_hex64 (docHash s) = true)
  /\ (docHash s <> "" -> exists f, file s = Some f).
Proof.
  cbv zeta. destruct (session_from evs initialState initialState_inv) as [[Hx Hf] _].
  split.
  - destruct (String.eqb_spec (docHash (fst (session evs initialState))) "") as [E | _].
    + left. exact E.
    + right. exact Hx.
  - intros Hne. destruct (file (fst (session evs initialState))) as [f |] eqn:E.
    + exists f. reflexivity.
    + exfalso. apply Hf; [| reflexivity].
      destruct (String.eqb_spec (docHash (fst (session evs initialState))) "");
        [contradiction | reflexivity].
Qed.

(** X12: through the surface the alert of the handlers' guard is never
    raised: a button is enabled only with a non-empty digest, and then a
    file is selected too. *)
Theorem session_never_alerts (evs : list Event) :
  alerts (snd (session evs initialState)) = [].
Proof. apply (session_from evs initialState initialState_inv). Qed.

(** X13: every request sent in a session carries in [docHash] a string of
    64 lower-case hex digits. *)
Theorem session_requests_carry_digest (evs : list Event) :
  forallb carries_hex64_digest (requests (snd (session evs initialState))) = true.
Proof. apply (session_from evs initialState initialState_inv). Qed.

(** X14: in a session in which the backend settles every request
    (fulfilled or rejected), [loading] is off after the last event: the
    controls are never left disabled. *)
Theorem session_answered_not_loading (evs : list Event) :
  Forall answered evs ->
  loading (fst (session evs initialState)) = false
  /\ input_disabled (fst (session evs initialState)) = false.
Proof.
  intros Ha.
  destruct (session_from evs initialState initialState_inv) as [_ [_ [_ H]]].
  unfold input_disabled. split; apply H; try assumption; reflexivity.
Qed.

Lemma session_answered_not_loading_witness :
  loading (fst (session [ SelectFile secure_window (Some report_pdf);
                          Click Register (rejects error_network);
                          Click Verify (answers not_found_body) ]
                        initialState)) = false.
Proof.
  refine (proj1 (session_answered_not_loading
                   [ SelectFile secure_window (Some report_pdf);
                     Click Register (rejects error_network);
                     Click Verify (answers not_found_body) ] _)).
  repeat constructor.
Defined.

Lemma surface_while_loading (ev : Event) (s : State) :
  loading s = true -> surface ev s = (Returned tt, s, []).
Proof.
  intros Hl. destruct ev as [window e0 | [|] backend]; cbn;
    unfold change_file, click_register, click_verify, input_disabled, button_disabled;
    rewrite Hl; reflexivity.
Qed.

Lemma session_while_loading (evs : list Event) (s : State) :
  loading s = true -> session evs s = (s, []).
Proof.
  intros Hl. induction evs as [|ev evs IH]; [reflexivity |].
  cbn [session]. rewrite (surface_while_loading ev s Hl).
  cbn [state_of trace_of fst snd]. rewrite IH. reflexivity.
Qed.

(** X15: a request that never settles freezes the session: after the
    click that sent it, no later event (file selection or click) changes
    the state or emits anything; the one request is all the session
    sends. *)
Theorem session_frozen_by_pending_request
    (backend : string -> JsVal -> Promise JsVal) (a : Action) (s : State)
    (f : File) (evs : list Event) :
  button_disabled s = false -> file s = Some f ->
  backend (fst (request_of a (docHash s) f)) (snd (request_of a (docHash s) f))
    = Pending ->
  session (Click a backend :: evs) s
  = (state_of (handle backend a s), [Post (fst (request_of a (docHash s) f))
                                          (snd (request_of a (docHash s) f))])
  /\ loading (state_of (handle backend a s)) = true.
Proof.
  intros Hb Hf Hp.
  assert (Hd : (docHash s =? "") = false).
  { unfold button_disabled in Hb. apply orb_false_elim in Hb. apply Hb. }
  assert (E : handle backend a s
              = (Suspended,
                 mkState (file s) (docHash s)
                   (match a with
                    | Register => "Attempting to register on-chain..."
                    | Verify => "Checking integrity against on-chain record..."
                    end) JNull true (JStr ""),
                 [Post (fst (request_of a (docHash s) f))
                       (snd (request_of a (docHash s) f))])).
  { destruct a; cbn in Hp |- *;
      unfold handleRegister, handleVerify, axios_post, try_catch_finally,
        bind, rendered, eval, await, setStatus, setResult, setLoading,
        setErrorMessage;
      cbn -[register_payload verify_payload]; rewrite Hd, Hf;
      cbn -[register_payload verify_payload]; rewrite Hp;
      cbn -[register_payload verify_payload]; rewrite Hf; reflexivity. }
  assert (C : surface (Click a backend) s = handle backend a s).
  { destruct a; cbn; unfold click_register, click_verify; rewrite Hb; reflexivity. }
  cbn [session]. rewrite C, E. cbn [state_of trace_of fst snd].
  rewrite session_while_loading by reflexivity. split; reflexivity.
Qed.

Lemma session_frozen_by_pending_request_witness :
  session [ Click Register never_answers;
            SelectFile secure_window (Some unreadable_txt);
            Click Verify (answers verified_ok_body) ] hashReady
  = (registering, [Post (fst (request_of Register d1 report_pdf))
                        (snd (request_of Register d1 report_pdf))]).
Proof.
  apply (session_frozen_by_pending_request never_answers Register hashReady report_pdf
           [ SelectFile secure_window (Some unreadable_txt);
             Click Verify (answers verified_ok_body) ]);
    reflexivity.
Defined.

(** X16: a settled action is not terminal: once the request of a click
    has been answered or has failed, both buttons are enabled again, and
    clicking the same button again sends the same request once more. *)
Theorem session_retry (backend backend' : string -> JsVal -> Promise JsVal)
    (a : Action) (s : State) (f : File) :
  button_disabled s = false -> file s = Some f ->
  (forall url body, is_settled (backend url body) = true) ->
  button_disabled (fst (session [Click a backend] s)) = false
  /\ requests (snd (session [Click a backend; Click a backend'] s))
     = [request_of a (docHash s) f; request_of a (docHash s) f].
Proof.
  intros Hb Hf Hs.
  assert (C : forall b, surface (Click a b) s = handle b a s).
  { intro b. destruct a; cbn; unfold click_register, click_verify;
      rewrite Hb; reflexivity. }
  unfold button_disabled in Hb. apply orb_false_elim in Hb. destruct Hb as [Hl Hd].
  destruct (handle_frame backend a s) as [Fd Ff].
  pose proof (loading_handle backend a s Hs Hl) as Hl'.
  assert (Hb' : button_disabled (state_of (handle backend a s)) = false).
  { unfold button_disabled. rewrite Hl', Fd, Hd. reflexivity. }
  assert (C' : surface (Click a backend') (state_of (handle backend a s))
               = handle backend' a (state_of (handle backend a s))).
  { destruct a; cbn; unfold click_register, click_verify;
      cbn in Hb'; rewrite Hb'; reflexivity. }
  split.
  - cbn [session fst]. rewrite C. exact Hb'.
  - cbn [session snd fst]. rewrite C, C'.
    rewrite !requests_app, !requests_handle, Fd, Ff, Hd, Hf. reflexivity.
Qed.

Lemma session_retry_witness :
  requests (snd (session [ Click Register (rejects error_already_registered);
                           Click Register (answers receipt_body) ] hashReady))
  = [request_of Register d1 report_pdf; request_of Register d1 report_pdf].
Proof.
  refine (proj2 (session_retry (rejects error_already_registered) (answers receipt_body)
                   Register hashReady report_pdf _ _ _)); reflexivity.
Defined.

(** ** The style of the hash line *)

Lemma prefix_chars (needle haystack : string) :
  prefix needle haystack = true ->
  forall c, In c (list_ascii_of_string needle) -> In c (list_ascii_of_string haystack).
Proof.
  revert haystack. induction needle as [|a needle IH]; intros haystack Hp c Hc.
  - destruct Hc.
  - destruct haystack as [|b haystack]; [discriminate |].
    cbn in Hp. destruct (ascii_dec a b) as [-> |]; [| discriminate].
    destruct Hc as [<- | Hc]; [left; reflexivity | right; now apply IH].
Qed.

(** A needle with a character the haystack lacks is not included. *)
Lemma includes_absent (haystack needle : string) (c : ascii) :
  In c (list_ascii_of_string needle) ->
  ~ In c (list_ascii_of_string haystack) ->
  includes haystack needle = false.
Proof.
  intros Hn Hh. destruct (includes haystack needle) eqn:E; [| reflexivity].
  exfalso. apply Hh. clear Hh.
  induction haystack as [|b haystack IH].
  - cbn [includes] in E. rewrite orb_false_r in E. apply (prefix_chars _ _ E c Hn).
  - cbn [includes] in E. apply orb_prop in E. destruct E as [E | E].
    + apply (prefix_chars _ _ E c Hn).
    + right. apply IH. exact E.
Qed.

Lemma substring0_chars (n : nat) (s : string) (c : ascii) :
  In c (list_ascii_of_string (substring 0 n s)) -> In c (list_ascii_of_string s).
Proof.
  revert n. induction s as [|a s IH]; intros n H.
  - destruct n; exact H.
  - destruct n as [|n]; [destruct H |].
    cbn in H. destruct H as [<- | H]; [left; reflexivity | right; now apply (IH n)].
Qed.

Lemma hash_line_lacks (hash : string) (c : ascii) :
  forallb is_lower_hex (list_ascii_of_string hash) = true ->
  is_lower_hex c = false ->
  ~ In c (list_ascii_of_string "Hash calculated: ...") ->
  ~ In c (list_ascii_of_string ("Hash calculated: " ++ substring 0 10 hash ++ "...")).
Proof.
  intros Hx Hc Hfix Hin.
  rewrite !list_ascii_of_string_app, !in_app_iff in Hin.
  destruct Hin as [Hin | [Hin | Hin]].
  - apply Hfix. change "Hash calculated: ..." with ("Hash calculated: " ++ "...").
    rewrite list_ascii_of_string_app, in_app_iff. left. exact Hin.
  - apply substring0_chars in Hin.
    rewrite forallb_forall in Hx. rewrite (Hx c Hin) in Hc. discriminate.
  - apply Hfix. change "Hash calculated: ..." with ("Hash calculated: " ++ "...").
    rewrite list_ascii_of_string_app, in_app_iff. right. exact Hin.
Qed.

Ltac absent_char c :=
  apply (includes_absent _ _ c);
  [ cbn; tauto
  | apply hash_line_lacks;
    [ assumption | reflexivity
    | cbn; intros H;
      repeat (destruct H as [H | H]; [discriminate H |]); exact H ] ].

(** X17: the status line shown after a successful hash is rendered gray
    for every digest: none of the words the style tests look for can occur
    in it, since each has a letter that is neither a lower-case hex digit
    nor part of the fixed text. *)
Theorem hash_line_style (window : Window) (selectedFile : File)
    (buffer : list byte) (s : State) :
  subtle_defined window = true ->
  contents selectedFile = Loaded buffer ->
  getStatusStyle (status (state_of (handleFileChange window (Some selectedFile) s)))
  = mkStyle "gray" None.
Proof.
  intros Hw Hc. rewrite handleFileChange_selected.
  unfold calculateSha256. rewrite Hc, Hw. cbn [state_of fst snd status].
  pose proof (hashHex_lower (Sha256.digest buffer)) as Hx.
  set (hash := hashHex (Sha256.digest buffer)) in *.
  unfold getStatusStyle.
  assert (E1 : includes ("Hash calculated: " ++ substring 0 10 hash ++ "...")
                 "VERIFIED_OK" = false) by absent_char "V"%char.
  assert (E2 : includes ("Hash calculated: " ++ substring 0 10 hash ++ "...")
                 "UNREGISTERED" = false) by absent_char "U"%char.
  assert (E3 : includes ("Hash calculated: " ++ substring 0 10 hash ++ "...")
                 "TAMPERED" = false) by absent_char "T"%char.
  assert (E4 : includes ("Hash calculated: " ++ substring 0 10 hash ++ "...")
                 "failed" = false) by absent_char "i"%char.
  assert (E5 : includes ("Hash calculated: " ++ substring 0 10 hash ++ "...")
                 "Error" = false) by absent_char "E"%char.
  rewrite E1, E2, E3, E4, E5. reflexivity.
Qed.

Lemma hash_line_style_witness :
  getStatusStyle
    (status (state_of (handleFileChange secure_window (Some report_pdf) initialState)))
  = mkStyle "gray" None.
Proof.
  apply (hash_line_style secure_window report_pdf (repeat "a"%byte 1024) initialState);
    reflexivity.
Defined.
